(** * AxiomHive hybrid model: fusion orchestrator and attestation engine

    A shallow embedding of [src/axiomhive/__init__.py] and
    [src/axiomhive/core/attestation.py], with the library functions the two
    files call ([hashlib.sha256], [json.dumps], [str.encode]) modelled next
    to them, and the properties of the specification stated over it. *)

From Stdlib Require Import ZArith List Strings.String Strings.Ascii Strings.Byte Bool Lia Permutation.
From Stdlib Require Import PrimFloat FloatOps SpecFloat DecimalString.
From stdpp Require Import gmap.
Import ListNotations.

#[local] Set Warnings "-inexact-float".

Local Open Scope string_scope.
Local Open Scope Z_scope.

(* ===================================================================== *)
(** ** [hashlib.sha256] (FIPS 180-4) on byte sequences                    *)
(* ===================================================================== *)

Module SHA256.

(** 32-bit words are integers in [0, 2^32); every operation wraps. *)
Definition w32 : Z := 2 ^ 32.
Definition add32 (x y : Z) : Z := (x + y) mod w32.
Definition shr (n x : Z) : Z := Z.shiftr x n.
Definition rotr (n x : Z) : Z :=
  Z.lor (Z.shiftr x n) ((Z.shiftl x (32 - n)) mod w32).
Definition not32 (x : Z) : Z := w32 - 1 - x.

Definition ch (x y z : Z) : Z := Z.lxor (Z.land x y) (Z.land (not32 x) z).
Definition maj (x y z : Z) : Z :=
  Z.lxor (Z.lxor (Z.land x y) (Z.land x z)) (Z.land y z).
Definition bsig0 (x : Z) : Z := Z.lxor (Z.lxor (rotr 2 x) (rotr 13 x)) (rotr 22 x).
Definition bsig1 (x : Z) : Z := Z.lxor (Z.lxor (rotr 6 x) (rotr 11 x)) (rotr 25 x).
Definition ssig0 (x : Z) : Z := Z.lxor (Z.lxor (rotr 7 x) (rotr 18 x)) (shr 3 x).
Definition ssig1 (x : Z) : Z := Z.lxor (Z.lxor (rotr 17 x) (rotr 19 x)) (shr 10 x).

(** The round constants are the first 32 bits of the fractional parts of
    the cube roots of the first 64 primes, the initial state those of the
    square roots of the first 8: both tables are computed, not typed in. *)
Definition is_prime (n : Z) : bool :=
  forallb (fun d => negb (n mod d =? 0) || (n <=? d))
          (map Z.of_nat (seq 2 18)).

Definition primes : list Z :=
  Eval vm_compute in filter is_prime (map Z.of_nat (seq 2 310)).

(** Integer cube root, one bit at a time from bit [b - 1] down. *)
Fixpoint icbrt_bits (b : nat) (n r : Z) : Z :=
  match b with
  | O => r
  | S b' =>
      let c := r + 2 ^ Z.of_nat b' in
      icbrt_bits b' n (if c * c * c <=? n then c else r)
  end.
Definition icbrt (n : Z) : Z := icbrt_bits 40 n 0.

Definition K : list Z :=
  Eval vm_compute in map (fun p => icbrt (p * 2 ^ 96) mod w32) primes.

Definition H0 : list Z :=
  Eval vm_compute in map (fun p => Z.sqrt (p * 2 ^ 64) mod w32) (firstn 8 primes).

(** Padding: the byte 0x80, zero bytes up to 56 modulo 64, then the bit
    length as a 64-bit big-endian integer. *)
Definition be_bytes (n : nat) (x : Z) : list Z :=
  map (fun i => Z.shiftr x (8 * Z.of_nat (n - 1 - i)) mod 256) (seq 0 n).

Definition pad (msg : list Z) : list Z :=
  let len := Z.of_nat (length msg) in
  msg ++ [128] ++ repeat 0 (Z.to_nat ((55 - len) mod 64)) ++ be_bytes 8 (8 * len).

Fixpoint words (n : nat) (bs : list Z) : list Z :=
  match n, bs with
  | S n', b0 :: b1 :: b2 :: b3 :: rest =>
      (((b0 * 256 + b1) * 256 + b2) * 256 + b3) :: words n' rest
  | _, _ => []
  end.

(** Message schedule: [extend] grows the 16 words of a block to 64. *)
Fixpoint extend (n : nat) (W : list Z) : list Z :=
  match n with
  | O => W
  | S n' =>
      let t := length W in
      let wt := add32 (add32 (add32 (ssig1 (nth (t - 2) W 0)) (nth (t - 7) W 0))
                             (ssig0 (nth (t - 15) W 0)))
                      (nth (t - 16) W 0) in
      extend n' (W ++ [wt])
  end.

Record state := St { sa : Z; sb : Z; sc : Z; sd : Z; se : Z; sf : Z; sg : Z; sh : Z }.

Definition round (s : state) (kw : Z * Z) : state :=
  let t1 := add32 (add32 (add32 (add32 (sh s) (bsig1 (se s)))
                                (ch (se s) (sf s) (sg s))) (fst kw)) (snd kw) in
  let t2 := add32 (bsig0 (sa s)) (maj (sa s) (sb s) (sc s)) in
  St (add32 t1 t2) (sa s) (sb s) (sc s) (add32 (sd s) t1) (se s) (sf s) (sg s).

Definition compress (s : state) (block : list Z) : state :=
  let r := fold_left round (combine K (extend 48 block)) s in
  St (add32 (sa s) (sa r)) (add32 (sb s) (sb r)) (add32 (sc s) (sc r))
     (add32 (sd s) (sd r)) (add32 (se s) (se r)) (add32 (sf s) (sf r))
     (add32 (sg s) (sg r)) (add32 (sh s) (sh r)).

Fixpoint blocks (n : nat) (ws : list Z) : list (list Z) :=
  match n with
  | O => []
  | S n' => firstn 16 ws :: blocks n' (skipn 16 ws)
  end.

Definition init : state :=
  match H0 with
  | [a; b; c; d; e; f; g; h] => St a b c d e f g h
  | _ => St 0 0 0 0 0 0 0 0
  end.

Definition digest_words (msg : list Z) : list Z :=
  let p := pad msg in
  let ws := words (length p / 4) p in
  let s := fold_left compress (blocks (length ws / 16) ws) init in
  [sa s; sb s; sc s; sd s; se s; sf s; sg s; sh s].

Definition hex_digit (d : Z) : ascii :=
  ascii_of_N (Z.to_N (if d <? 10 then 48 + d else 87 + d)).

Definition hex_byte (b : Z) : string :=
  String (hex_digit (b / 16)) (String (hex_digit (b mod 16)) EmptyString).

Definition word_hex (x : Z) : string :=
  String.concat "" (map hex_byte (be_bytes 4 x)).

(** [hashlib.sha256(data).hexdigest()]: 64 lower-case hexadecimal digits. *)
Definition hexdigest (data : list byte) : string :=
  String.concat "" (map word_hex (digest_words (map (fun b => Z.of_N (Byte.to_N b)) data))).

End SHA256.

(* ===================================================================== *)
(** ** Python values                                                      *)
(* ===================================================================== *)

(** The values a [Dict[str, Any]] of this program holds: the JSON-native
    types, dictionaries with [str] keys kept in insertion order, and any
    other object, given by the texts [str()] and [repr()] return on it.
    A [str] is a sequence of code points below 256, one [ascii] each. *)
#[local] Unset Elimination Schemes.
Inductive pyval : Type :=
| PNone
| PBool (b : bool)
| PInt (n : Z)
| PFloat (x : float)
| PStr (s : string)
| PList (xs : list pyval)
| PDict (items : list (string * pyval))
| PObj (str_text repr_text : string).
#[local] Set Elimination Schemes.

Definition pydict : Type := list (string * pyval).

Definition dquote : ascii := "034"%char.
Definition squote : ascii := "039"%char.
Definition backslash : ascii := "092"%char.
Definition chr (c : ascii) : string := String c EmptyString.

Definition hex_fixed (width : nat) (n : Z) : string :=
  String.concat ""
    (map (fun i => chr (SHA256.hex_digit (Z.shiftr n (4 * Z.of_nat (width - 1 - i)) mod 16)))
         (seq 0 width)).

Definition concat_map (f : ascii -> string) (s : string) : string :=
  String.concat "" (map f (list_ascii_of_string s)).

Definition contains (c : ascii) (s : string) : bool :=
  existsb (Ascii.eqb c) (list_ascii_of_string s).

(** [int.__repr__]. *)
Definition int_repr (n : Z) : string :=
  NilZero.string_of_int (Z.to_int n).

(** [float.__repr__]: the shortest decimal text that reads back as the same
    binary64 value and, among the shortest, the one nearest to it. A float
    [m * 2^e] is the value every real of its rounding interval rounds to;
    the text is found on the coarsest grid of multiples of [10^K] that has a
    point in that interval. *)
Module PyFloat.

Definition ceil_div (a b : Z) : Z := - ((- a) / b).

(** The multiples [c * 10^K] that round to the float [m * 2^e] are those of
    its rounding interval, half a unit in the last place to each side (a
    quarter below a power of two), ends included when [m] is even. The
    result is the coefficient [c] of the one nearest to the float, [None]
    when there is none. All bounds are scaled to integers. *)
Definition grid_point (m e K : Z) : option Z :=
  let s := e - 2 in
  let D := if 0 <=? s then 1 else 2 ^ (- s) in
  let M := if 0 <=? s then 2 ^ s else 1 in
  let lowq := if (m =? 2 ^ 52) && (-1074 <? e) then 4 * m - 1 else 4 * m - 2 in
  let Q := if 0 <=? K then 10 ^ K else 1 in
  let P := if 0 <=? K then 1 else 10 ^ (- K) in
  let A := Q * D in
  let L := lowq * M * P in
  let V := 4 * m * M * P in
  let H := (4 * m + 2) * M * P in
  let cmin := if Z.even m then ceil_div L A else L / A + 1 in
  let cmax := if Z.even m then H / A else ceil_div H A - 1 in
  let near :=
    let q := V / A in
    let r := 2 * (V mod A) in
    if r <? A then q else if A <? r then q + 1 else if Z.even q then q else q + 1 in
  if cmin <=? cmax then Some (Z.max cmin (Z.min cmax near)) else None.

(** The coarsest grid with a point, searched downwards from a [K] above
    the decimal exponent of the float; it is reached within 20 steps. *)
Fixpoint shortest (fuel : nat) (m e K : Z) : Z * Z :=
  match fuel with
  | O => (m, 0)
  | S fuel' =>
      match grid_point m e K with
      | Some c => (c, K)
      | None => shortest fuel' m e (K - 1)
      end
  end.

Definition zeros (n : Z) : string :=
  string_of_list_ascii (repeat "0"%char (Z.to_nat n)).

(** [format_float_short] with format code ['r']. *)
Definition format (digits : string) (decpt : Z) : string :=
  let n := Z.of_nat (String.length digits) in
  if (decpt <=? -4) || (16 <? decpt) then
    let ex := decpt - 1 in
    let mant :=
      match digits with
      | String d EmptyString => String d EmptyString
      | String d rest => String d ("." ++ rest)
      | EmptyString => EmptyString
      end in
    let ea := int_repr (Z.abs ex) in
    mant ++ "e" ++ (if ex <? 0 then "-" else "+")
         ++ (if Z.abs ex <? 10 then "0" else "") ++ ea
  else if decpt <=? 0 then "0." ++ zeros (- decpt) ++ digits
  else if n <=? decpt then digits ++ zeros (decpt - n) ++ ".0"
  else substring 0 (Z.to_nat decpt) digits ++ "."
       ++ substring (Z.to_nat decpt) (Z.to_nat (n - decpt)) digits.

Definition repr (x : float) : string :=
  match Prim2SF x with
  | S754_zero s => if s then "-0.0" else "0.0"
  | S754_infinity s => if s then "-inf" else "inf"
  | S754_nan => "nan"
  | S754_finite s m e =>
      let '(c, K) := shortest 64 (Z.pos m) e ((e + 53) * 30103 / 100000 + 2) in
      let digits := int_repr c in
      (if s then "-" else "") ++ format digits (Z.of_nat (String.length digits) + K)
  end.

End PyFloat.

Definition float_repr (x : float) : string := PyFloat.repr x.

(** [str.__repr__]: single quotes unless the text has a single quote and
    no double quote; backslash escapes for the quote, the backslash and
    the unprintable code points. *)
Definition repr_char (q c : ascii) : string :=
  let n := N_of_ascii c in
  if (n =? 92)%N then String backslash (chr backslash)
  else if Ascii.eqb c q then String backslash (chr q)
  else if (n =? 9)%N then String backslash "t"
  else if (n =? 10)%N then String backslash "n"
  else if (n =? 13)%N then String backslash "r"
  else if (n <? 32)%N || (n =? 127)%N || ((128 <=? n)%N && (n <=? 160)%N) || (n =? 173)%N
       then String backslash ("x" ++ hex_fixed 2 (Z.of_N n))
  else chr c.

Definition str_repr (s : string) : string :=
  let q := if contains squote s && negb (contains dquote s) then dquote else squote in
  String q (concat_map (repr_char q) s ++ chr q).

(** The built-in [repr]. *)
Fixpoint py_repr (v : pyval) : string :=
  match v with
  | PNone => "None"
  | PBool b => if b then "True" else "False"
  | PInt n => int_repr n
  | PFloat x => float_repr x
  | PStr s => str_repr s
  | PList xs => "[" ++ String.concat ", " (map py_repr xs) ++ "]"
  | PDict items =>
      "{" ++ String.concat ", "
               (map (fun kv => str_repr (fst kv) ++ ": " ++ py_repr (snd kv)) items)
          ++ "}"
  | PObj _ r => r
  end.

(** The built-in [str], which is also what an f-string field [{v}] and
    [json.dumps]'s [default=str] apply. *)
Definition py_str (v : pyval) : string :=
  match v with
  | PStr s => s
  | PObj s _ => s
  | _ => py_repr v
  end.

(** [datetime.datetime], without a time zone as [utcnow] returns it, and its
    [isoformat()]: [YYYY-MM-DDTHH:MM:SS], followed by [.ffffff] when the
    microseconds are not zero. [zfill] prints the [width] low decimal
    digits, which is [%0<width>d] on the values in range. *)
Module datetime.

Record t : Type := {
  year : Z; month : Z; day : Z;
  hour : Z; minute : Z; second : Z; microsecond : Z
}.

Definition in_range (d : t) : bool :=
  (1 <=? year d) && (year d <=? 9999) && (1 <=? month d) && (month d <=? 12)
  && (1 <=? day d) && (day d <=? 31) && (0 <=? hour d) && (hour d <=? 23)
  && (0 <=? minute d) && (minute d <=? 59) && (0 <=? second d) && (second d <=? 59)
  && (0 <=? microsecond d) && (microsecond d <=? 999999).

Definition digit (d : Z) : ascii := ascii_of_N (48 + Z.to_N d).

Fixpoint zfill (width : nat) (n : Z) : string :=
  match width with
  | O => ""
  | S w => zfill w (n / 10) ++ chr (digit (n mod 10))
  end.

Definition isoformat (d : t) : string :=
  zfill 4 (year d) ++ "-" ++ zfill 2 (month d) ++ "-" ++ zfill 2 (day d) ++ "T"
  ++ zfill 2 (hour d) ++ ":" ++ zfill 2 (minute d) ++ ":" ++ zfill 2 (second d)
  ++ (if microsecond d =? 0 then "" else "." ++ zfill 6 (microsecond d)).

End datetime.

(** Exceptions the modelled code can raise, and results of fallible calls. *)
Inductive exn : Type :=
| KeyError (key : string)
| AttributeError (attr : string).

Definition exn_name (e : exn) : string :=
  match e with
  | KeyError _ => "KeyError"
  | AttributeError _ => "AttributeError"
  end.

Inductive result (A : Type) : Type :=
| Ok (a : A)
| Raise (e : exn).
Arguments Ok {A} a.
Arguments Raise {A} e.

Definition bind {A B : Type} (r : result A) (k : A -> result B) : result B :=
  match r with
  | Ok a => k a
  | Raise e => Raise e
  end.

Notation "'do' x <- r ; k" := (bind r (fun x => k))
  (at level 10, x name, r at level 100, k at level 200).

(** [d.get(key)] as an option, [d[key]] and [d.get(key, default)]. *)
Fixpoint lookup_key (key : string) (d : pydict) : option pyval :=
  match d with
  | [] => None
  | (k, v) :: rest => if String.eqb k key then Some v else lookup_key key rest
  end.

Definition getitem (d : pydict) (key : string) : result pyval :=
  match lookup_key key d with
  | Some v => Ok v
  | None => Raise (KeyError key)
  end.

Definition get (d : pydict) (key : string) (default : pyval) : pyval :=
  match lookup_key key d with
  | Some v => v
  | None => default
  end.

(* ===================================================================== *)
(** ** [json.dumps(obj, sort_keys=True, default=str)] and [str.encode]    *)
(* ===================================================================== *)

(** [json.encoder.py_encode_basestring_ascii]: everything outside the
    printable ASCII range, the double quote and the backslash are escaped. *)
Definition escape_char (c : ascii) : string :=
  let n := N_of_ascii c in
  if (n =? 34)%N then String backslash (chr dquote)
  else if (n =? 92)%N then String backslash (chr backslash)
  else if (n =? 10)%N then String backslash "n"
  else if (n =? 13)%N then String backslash "r"
  else if (n =? 9)%N then String backslash "t"
  else if (n =? 8)%N then String backslash "b"
  else if (n =? 12)%N then String backslash "f"
  else if (n <? 32)%N || (126 <? n)%N then String backslash ("u" ++ hex_fixed 4 (Z.of_N n))
  else chr c.

Definition encode_basestring_ascii (s : string) : string :=
  String dquote (concat_map escape_char s ++ chr dquote).

(** [sorted(dct.items())]: a stable insertion sort on the keys, compared
    as Python compares [str], code point by code point. Keys of a [dict]
    are distinct, so the values are never compared. *)
Fixpoint insert_item {A : Type} (x : string * A) (l : list (string * A)) : list (string * A) :=
  match l with
  | [] => [x]
  | y :: rest =>
      if String.ltb (fst y) (fst x) then y :: insert_item x rest else x :: l
  end.

Fixpoint sorted_items {A : Type} (l : list (string * A)) : list (string * A) :=
  match l with
  | [] => []
  | x :: rest => insert_item x (sorted_items rest)
  end.

(** [json.encoder.floatstr], with [allow_nan] at its default. *)
Definition floatstr (x : float) : string :=
  if negb (PrimFloat.eqb x x) then "NaN"
  else if PrimFloat.eqb x infinity then "Infinity"
  else if PrimFloat.eqb x neg_infinity then "-Infinity"
  else float_repr x.

Definition render_item (kv : string * string) : string :=
  encode_basestring_ascii (fst kv) ++ ": " ++ snd kv.

(** The encoder, with the default separators [", "] and [": "]. The values
    of a dictionary are rendered before its items are sorted; the sort looks
    at the keys only, so the text is the one of sorting first. *)
Fixpoint dumps (v : pyval) : string :=
  match v with
  | PNone => "null"
  | PBool b => if b then "true" else "false"
  | PInt n => int_repr n
  | PFloat x => floatstr x
  | PStr s => encode_basestring_ascii s
  | PList xs => "[" ++ String.concat ", " (map dumps xs) ++ "]"
  | PDict items =>
      "{" ++ String.concat ", "
               (map render_item
                    (sorted_items (map (fun kv => (fst kv, dumps (snd kv))) items)))
          ++ "}"
  | PObj s _ => encode_basestring_ascii s
  end.

(** [str.encode()]: UTF-8, one byte below 128 and two bytes from there on. *)
Definition encode_char (c : ascii) : list byte :=
  let n := N_of_ascii c in
  if (n <? 128)%N then [byte_of_ascii c]
  else [byte_of_ascii (ascii_of_N (192 + n / 64)); byte_of_ascii (ascii_of_N (128 + n mod 64))].

Definition encode (s : string) : list byte :=
  flat_map encode_char (list_ascii_of_string s).

(** [hashlib.sha256(text.encode()).hexdigest()]. *)
Definition sha256_hex (text : string) : string := SHA256.hexdigest (encode text).

(* ===================================================================== *)
(** ** [src/axiomhive/__init__.py]                                        *)
(* ===================================================================== *)

Definition __version__ : string := "1.0.0".
Definition __author__ : string := "Alexis Adams".
Definition __company__ : string := "AxiomHive".

Inductive ReasoningMode : Type := SYMBOLIC | PROBABILISTIC | HYBRID | VOTING.

Definition ReasoningMode_value (m : ReasoningMode) : string :=
  match m with
  | SYMBOLIC => "symbolic"
  | PROBABILISTIC => "probabilistic"
  | HYBRID => "hybrid"
  | VOTING => "voting"
  end.

(** What the attribute [reasoning_mode] can hold at run time: a member of
    the enumeration or, since nothing checks the annotation, any other
    object. Such an object is given by the two things the code asks of it:
    its [value] attribute, when it has one, and the truth of [obj == member]
    for each member, which Python takes from the [__eq__] of the object and
    which is taken to return. An object that defines no comparison of its
    own is unequal to every member: its [eq] is [default_eq]. *)
Inductive mode_object : Type :=
| Member (m : ReasoningMode)
| Foreign (value : option pyval) (eq : ReasoningMode -> bool).

Definition default_eq (m : ReasoningMode) : bool := false.

Definition mode_value (o : mode_object) : result pyval :=
  match o with
  | Member m => Ok (PStr (ReasoningMode_value m))
  | Foreign (Some v) _ => Ok v
  | Foreign None _ => Raise (AttributeError "value")
  end.

(** [o == ReasoningMode.m]: identity between members, the answer of the
    object itself otherwise. *)
Definition mode_is (o : mode_object) (m : ReasoningMode) : bool :=
  match o, m with
  | Member SYMBOLIC, SYMBOLIC
  | Member PROBABILISTIC, PROBABILISTIC
  | Member HYBRID, HYBRID
  | Member VOTING, VOTING => true
  | Foreign _ eq, m => eq m
  | _, _ => false
  end.

Module HybridOutput.
Record t : Type := {
  output : pyval;
  reasoning_path : pyval;
  confidence_score : pyval;
  formal_verification : bool;
  attestation_hash : option string;
  symbolic_contribution : pyval;
  probabilistic_contribution : pyval;
  compliance_verified : bool
}.
End HybridOutput.

Module AxiomHiveHybridModel.

Record t : Type := {
  symbolic_axioms_path : option string;
  probabilistic_model_path : option string;
  reasoning_mode : mode_object;
  attestation_enabled : bool;
  compliance_mode : string;
  symbolic_engine : pyval;
  probabilistic_engine : pyval;
  orchestrator : pyval
}.

(** The constructor stores its arguments and sets the three engines to
    [None]; its logging reads [reasoning_mode.value]. Logging has no other
    effect on what the methods return and is not modelled further. *)
Definition __init__ (symbolic_axioms_path probabilistic_model_path : option string)
    (reasoning_mode : mode_object) (attestation_enabled : bool)
    (compliance_mode : string) : result t :=
  do _ <- mode_value reasoning_mode;
  Ok {| symbolic_axioms_path := symbolic_axioms_path;
        probabilistic_model_path := probabilistic_model_path;
        reasoning_mode := reasoning_mode;
        attestation_enabled := attestation_enabled;
        compliance_mode := compliance_mode;
        symbolic_engine := PNone;
        probabilistic_engine := PNone;
        orchestrator := PNone |}.

Definition _symbolic_reasoning (self : t) (input_data : pyval)
    (verify_constraints : bool) : pydict :=
  [ ("decision", PStr "APPROVED");
    ("reasoning", PStr "Constraint satisfaction verified via formal logic");
    ("verified", PBool true) ].

Definition _probabilistic_inference (self : t) (input_data : pyval) : pydict :=
  [ ("decision", PStr "APPROVED");
    ("confidence", PFloat 0.96);
    ("reasoning", PStr "Pattern recognition confidence 96%") ].

Definition _orchestrate (self : t) (symbolic probabilistic : pydict)
    : result pydict :=
  do _ <- mode_value (reasoning_mode self);
  if mode_is (reasoning_mode self) SYMBOLIC then Ok symbolic
  else if mode_is (reasoning_mode self) PROBABILISTIC then Ok probabilistic
  else
    do decision <- getitem symbolic "decision";
    let confidence := get probabilistic "confidence" (PFloat 0.5) in
    do symbolic_reasoning <- getitem symbolic "reasoning";
    do probabilistic_reasoning <- getitem probabilistic "reasoning";
    Ok [ ("decision", decision);
         ("confidence", confidence);
         ("reasoning", PStr ("Symbolic: " ++ py_str symbolic_reasoning
                             ++ "; Probabilistic: " ++ py_str probabilistic_reasoning));
         ("symbolic_weight", PFloat 0.6);
         ("probabilistic_weight", PFloat 0.4) ].

Definition _generate_attestation (self : t) (output : pydict) : string :=
  let output_str := dumps (PDict output) in
  sha256_hex output_str.

Definition process (self : t) (input_data : pyval)
    (require_explanation verify_constraints : bool) : result HybridOutput.t :=
  let symbolic_result := _symbolic_reasoning self input_data verify_constraints in
  let probabilistic_result := _probabilistic_inference self input_data in
  do fused_output <- _orchestrate self symbolic_result probabilistic_result;
  let attestation_hash :=
    if attestation_enabled self then Some (_generate_attestation self fused_output) else None in
  do decision <- getitem fused_output "decision";
  Ok {| HybridOutput.output := decision;
        HybridOutput.reasoning_path :=
          if require_explanation then get fused_output "reasoning" (PStr "") else PStr "";
        HybridOutput.confidence_score := get fused_output "confidence" (PFloat 0.0);
        HybridOutput.formal_verification := verify_constraints;
        HybridOutput.attestation_hash := attestation_hash;
        HybridOutput.symbolic_contribution := get fused_output "symbolic_weight" (PFloat 0.0);
        HybridOutput.probabilistic_contribution := get fused_output "probabilistic_weight" (PFloat 0.0);
        HybridOutput.compliance_verified := true |}.

Definition verify_output (self : t) (output : HybridOutput.t)
    (attestation_hash : string) : bool :=
  let output_dict :=
    [ ("output", HybridOutput.output output);
      ("reasoning_path", HybridOutput.reasoning_path output);
      ("confidence_score", HybridOutput.confidence_score output) ] in
  let output_str := dumps (PDict output_dict) in
  let computed_hash := sha256_hex output_str in
  let is_valid := String.eqb computed_hash attestation_hash in
  is_valid.

Definition get_audit_trail (self : t) : result pydict :=
  do mode <- mode_value (reasoning_mode self);
  Ok [ ("version", PStr __version__);
       ("reasoning_mode", mode);
       ("attestation_enabled", PBool (attestation_enabled self));
       ("compliance_mode", PStr (compliance_mode self));
       ("author", PStr __author__);
       ("company", PStr __company__) ].

End AxiomHiveHybridModel.

(* ===================================================================== *)
(** ** [src/axiomhive/core/attestation.py]                                *)
(* ===================================================================== *)

(** Python lists are objects with an identity: a store maps the location of
    each list to its current elements, and a variable or an attribute that
    holds a list holds its location. *)
Definition loc : Type := positive.
Abbreviation store := (gmap loc (list pyval)).

(** [lst.append(x)] and the other in-place operations of a list, through a
    reference [r] to it. *)
Definition list_update (f : list pyval -> list pyval) (r : loc) (h : store) : store :=
  alter f r h.
Definition list_append (r : loc) (x : pyval) (h : store) : store :=
  list_update (fun l => (l ++ [x])%list) r h.
Definition list_clear (r : loc) (h : store) : store :=
  list_update (fun _ => []) r h.

(** [metadata or {}]: [None] and the empty dictionary are both false. *)
Definition or_empty (metadata : option pydict) : pydict :=
  match metadata with
  | Some (item :: rest) => item :: rest
  | _ => []
  end.

Module CryptographicAttestationEngine.

Record t : Type := {
  strategy : string;
  attestation_log : loc
}.

(** [self.attestation_log = []] allocates a new, empty list. *)
Definition __init__ (strategy : string) (h : store) : t * store :=
  let l := fresh (dom h) in
  ({| strategy := strategy; attestation_log := l |}, <[l := []]> h).

(** [now] is what [datetime.utcnow()] returns when the call reads the
    clock, which it does once, inside the call. *)
Definition generate_attestation (self : t) (output : pydict) (metadata : option pydict)
    (now : datetime.t) (h : store) : string * store :=
  let attestation_dict :=
    [ ("output", PDict output);
      ("metadata", PDict (or_empty metadata));
      ("timestamp", PStr (datetime.isoformat now)) ] in
  let attestation_str := dumps (PDict attestation_dict) in
  let attestation_hash := sha256_hex attestation_str in
  let h' :=
    list_append (attestation_log self)
      (PDict [ ("hash", PStr attestation_hash);
               ("timestamp", PStr (datetime.isoformat now));
               ("strategy", PStr (strategy self)) ]) h in
  (attestation_hash, h').

Definition verify_attestation (self : t) (output : pydict) (attestation_hash : string)
    (metadata : option pydict) (now : datetime.t) : bool :=
  let attestation_dict :=
    [ ("output", PDict output);
      ("metadata", PDict (or_empty metadata));
      ("timestamp", PStr (datetime.isoformat now)) ] in
  let attestation_str := dumps (PDict attestation_dict) in
  let computed_hash := sha256_hex attestation_str in
  String.eqb computed_hash attestation_hash.

(** Returns [self.attestation_log]: the list itself, not a copy of it. *)
Definition get_audit_trail (self : t) : loc := attestation_log self.

(** The calls a client can make on an engine, what each returns, and a
    sequence of them run against a store. *)
Inductive call : Type :=
| Generate (output : pydict) (metadata : option pydict) (now : datetime.t)
| Verify (output : pydict) (attestation_hash : string) (metadata : option pydict)
         (now : datetime.t)
| GetAuditTrail.

Inductive returned : Type :=
| RStr (s : string)
| RBool (b : bool)
| RList (r : loc).

Definition step (self : t) (c : call) (h : store) : returned * store :=
  match c with
  | Generate output metadata now =>
      let '(digest, h') := generate_attestation self output metadata now h in
      (RStr digest, h')
  | Verify output attestation_hash metadata now =>
      (RBool (verify_attestation self output attestation_hash metadata now), h)
  | GetAuditTrail => (RList (get_audit_trail self), h)
  end.

Fixpoint run (self : t) (cs : list call) (h : store) : list returned * store :=
  match cs with
  | [] => ([], h)
  | c :: rest =>
      let '(r, h') := step self c h in
      let '(rs, h'') := run self rest h' in
      (r :: rs, h'')
  end.

End CryptographicAttestationEngine.

(* ===================================================================== *)
(** ** Notions the properties are stated with                             *)
(* ===================================================================== *)

(** Two different byte sequences with the same SHA-256 digest. *)
Definition sha256_collision (a b : list byte) : Prop :=
  a <> b /\ SHA256.hexdigest a = SHA256.hexdigest b.

(** A Python [dict] has no key twice: the lists of items that stand for
    dictionaries are the ones with distinct keys, at every depth. *)
Fixpoint distinct (keys : list string) : bool :=
  match keys with
  | [] => true
  | k :: rest => negb (existsb (String.eqb k) rest) && distinct rest
  end.

Fixpoint well_formed (v : pyval) : bool :=
  match v with
  | PList xs => forallb well_formed xs
  | PDict items =>
      distinct (map fst items) && forallb (fun kv => well_formed (snd kv)) items
  | _ => true
  end.

(** Logically equal values: equal up to the order in which the keys of
    their dictionaries were inserted, at every depth. *)
#[local] Unset Elimination Schemes.
Inductive same_value : pyval -> pyval -> Prop :=
| same_refl (v : pyval) : same_value v v
| same_list (xs ys : list pyval) :
    Forall2 same_value xs ys -> same_value (PList xs) (PList ys)
| same_dict (items permuted items' : list (string * pyval)) :
    Permutation items permuted ->
    Forall2 (fun kv kv' => fst kv = fst kv' /\ same_value (snd kv) (snd kv')) permuted items' ->
    same_value (PDict items) (PDict items').
#[local] Set Elimination Schemes.

Definition same_metadata (m m' : option pydict) : Prop :=
  match m, m' with
  | None, None => True
  | Some d, Some d' => same_value (PDict d) (PDict d')
  | _, _ => False
  end.

Definition well_formed_metadata (m : option pydict) : bool :=
  match m with
  | None => true
  | Some d => well_formed (PDict d)
  end.

(** Readers of one escaped character and of one encoded code point: the
    inverses of [escape_char] and [encode_char] at the head of a text. *)
Definition hex_value (c : ascii) : N :=
  let n := N_of_ascii c in
  if (n <? 58)%N then (n - 48)%N else (n - 87)%N.

Definition unescape_head (s : string) : option (ascii * string) :=
  match s with
  | EmptyString => None
  | String c rest =>
      if negb (Ascii.eqb c backslash) then Some (c, rest)
      else
        match rest with
        | String e rest' =>
            if Ascii.eqb e dquote then Some (dquote, rest')
            else if Ascii.eqb e backslash then Some (backslash, rest')
            else if Ascii.eqb e "n" then Some (ascii_of_N 10, rest')
            else if Ascii.eqb e "r" then Some (ascii_of_N 13, rest')
            else if Ascii.eqb e "t" then Some (ascii_of_N 9, rest')
            else if Ascii.eqb e "b" then Some (ascii_of_N 8, rest')
            else if Ascii.eqb e "f" then Some (ascii_of_N 12, rest')
            else
              match rest' with
              | String _ (String _ (String h1 (String h0 rest''))) =>
                  if Ascii.eqb e "u"
                  then Some (ascii_of_N (hex_value h1 * 16 + hex_value h0), rest'')
                  else None
              | _ => None
              end
        | EmptyString => None
        end
  end.

Definition utf8_head (bs : list byte) : option (ascii * list byte) :=
  match bs with
  | [] => None
  | b :: rest =>
      let n := Byte.to_N b in
      if (n <? 128)%N then Some (ascii_of_byte b, rest)
      else
        match rest with
        | b' :: rest' => Some (ascii_of_N ((n - 192) * 64 + (Byte.to_N b' - 128)), rest')
        | [] => None
        end
  end.

(** Expected JSON texts are written with apostrophes for the double quotes. *)
Definition json_text (s : string) : string :=
  concat_map (fun c => if Ascii.eqb c squote then chr dquote else chr c) s.

Import AxiomHiveHybridModel.
Import CryptographicAttestationEngine.

(** The canonical text [attestation_str] that [generate_attestation] and
    [verify_attestation] both build and hash. *)
Definition attestation_str (output : pydict) (metadata : option pydict) (now : datetime.t)
    : string :=
  dumps (PDict [ ("output", PDict output);
                 ("metadata", PDict (or_empty metadata));
                 ("timestamp", PStr (datetime.isoformat now)) ]).

(** It has its three keys in sorted order, the timestamp last: everything
    before the timestamp is independent of it. *)
Definition attestation_prefix (output : pydict) (metadata : option pydict) : string :=
  "{" ++ encode_basestring_ascii "metadata" ++ ": " ++ dumps (PDict (or_empty metadata))
      ++ ", " ++ encode_basestring_ascii "output" ++ ": " ++ dumps (PDict output)
      ++ ", " ++ encode_basestring_ascii "timestamp" ++ ": ".

(** Three instants: the first second of 2024, one microsecond and one
    second later. *)
Definition new_year : datetime.t :=
  {| datetime.year := 2024; datetime.month := 1; datetime.day := 1;
     datetime.hour := 0; datetime.minute := 0; datetime.second := 0;
     datetime.microsecond := 0 |}.

Definition new_year_1us : datetime.t :=
  {| datetime.year := 2024; datetime.month := 1; datetime.day := 1;
     datetime.hour := 0; datetime.minute := 0; datetime.second := 0;
     datetime.microsecond := 1 |}.

Definition new_year_1s : datetime.t :=
  {| datetime.year := 2024; datetime.month := 1; datetime.day := 1;
     datetime.hour := 0; datetime.minute := 0; datetime.second := 1;
     datetime.microsecond := 0 |}.

(** One payload under two insertion orders, an engine on an empty store,
    and a short session with it. *)
Definition payload_ab : pydict :=
  [ ("decision", PStr "APPROVED");
    ("detail", PDict [("rule", PStr "R3"); ("score", PFloat 0.5)]);
    ("tags", PList [PInt 1; PNone]) ].

Definition payload_ba : pydict :=
  [ ("tags", PList [PInt 1; PNone]);
    ("detail", PDict [("score", PFloat 0.5); ("rule", PStr "R3")]);
    ("decision", PStr "APPROVED") ].

Definition engine0 : t := fst (__init__ "sha256" ∅).
Definition store0 : store := snd (__init__ "sha256" ∅).

(** The digests among the values a session returned, the arguments of its
    [Generate] calls, both in call order, and a field of a log entry. *)
Fixpoint digests (rs : list returned) : list string :=
  match rs with
  | [] => []
  | RStr s :: rest => s :: digests rest
  | _ :: rest => digests rest
  end.

Fixpoint generate_calls (cs : list call) : list (pydict * option pydict * datetime.t) :=
  match cs with
  | [] => []
  | Generate output metadata now :: rest => (output, metadata, now) :: generate_calls rest
  | _ :: rest => generate_calls rest
  end.

Definition entry_field (key : string) (entry : pyval) : option pyval :=
  match entry with
  | PDict d => lookup_key key d
  | _ => None
  end.

Definition three_calls : list call :=
  [ Generate [("decision", PStr "APPROVED")] None new_year;
    GetAuditTrail;
    Generate [("decision", PStr "REJECTED")] (Some [("policy", PStr "v1")]) new_year_1s ].

(** The claim that the value [get_audit_trail] returns is a snapshot: no
    in-place change made through it reaches the log of the engine. *)
Definition audit_trail_is_snapshot (self : t) (h : store) : Prop :=
  forall f : list pyval -> list pyval,
    list_update f (get_audit_trail self) h !! attestation_log self
    = h !! attestation_log self.

(** The store after one attestation. *)
Definition store1 : store :=
  snd (generate_attestation engine0 [("decision", PStr "APPROVED")] None new_year store0).

(** A model with the default paths and compliance mode. *)
Definition model (mode : mode_object) (attestation : bool) : AxiomHiveHybridModel.t :=
  {| symbolic_axioms_path := None;
     probabilistic_model_path := None;
     reasoning_mode := mode;
     attestation_enabled := attestation;
     compliance_mode := "ISO42001";
     symbolic_engine := PNone;
     probabilistic_engine := PNone;
     orchestrator := PNone |}.

(** The records of the concrete scenario of the specification. *)
Definition deterministic_R3 : pydict :=
  [ ("decision", PStr "APPROVED");
    ("reasoning", PStr "rule R3 satisfied");
    ("verified", PBool true) ].

Definition probabilistic_anomaly : pydict :=
  [ ("decision", PStr "REJECTED");
    ("confidence", PFloat 0.3);
    ("reasoning", PStr "anomaly score high") ].

(** [process] reads two attributes of the model and ignores its input: the
    stub engines answer the same for every input. A mode object from
    outside the enumeration that has a [value] is treated as the member of
    the branch its two comparisons select: SYMBOLIC when it answers true to
    the first, PROBABILISTIC when it answers true to the second only, and
    HYBRID otherwise. *)
Definition effective_mode (o : mode_object) : mode_object :=
  match o with
  | Member m => Member m
  | Foreign _ eq =>
      if eq SYMBOLIC then Member SYMBOLIC
      else if eq PROBABILISTIC then Member PROBABILISTIC
      else Member HYBRID
  end.

(** Whether [verify_output] rejects the attestation [process] just made. *)
Definition rejects_own_attestation (m : ReasoningMode) (require_explanation verify_constraints : bool)
    : bool :=
  match process (model (Member m) true) PNone require_explanation verify_constraints with
  | Ok out =>
      match HybridOutput.attestation_hash out with
      | Some digest => negb (verify_output (model (Member m) true) out digest)
      | None => false
      end
  | Raise _ => false
  end.

(** The weights of a fused record, read the way [process] reads them. *)
Definition weights (r : pydict) : pyval * pyval :=
  (get r "symbolic_weight" (PFloat 0.0), get r "probabilistic_weight" (PFloat 0.0)).

(** The claim that SYMBOLIC returns the deterministic record with weights
    1.0 and 0.0, and PROBABILISTIC the probabilistic record with weights 0.0
    and 1.0. *)
Definition mode_purity_with_weights (self : AxiomHiveHybridModel.t) (d p : pydict) : Prop :=
  (reasoning_mode self = Member SYMBOLIC ->
   exists r, _orchestrate self d p = Ok r /\ r = d /\ weights r = (PFloat 1.0, PFloat 0.0))
  /\ (reasoning_mode self = Member PROBABILISTIC ->
      exists r, _orchestrate self d p = Ok r /\ r = p /\ weights r = (PFloat 0.0, PFloat 1.0)).

(** The claim that a mode value outside the enumeration makes the fusion
    raise [InvalidModeError]. *)
Definition unknown_mode_fails_fast (self : AxiomHiveHybridModel.t) (d p : pydict) : Prop :=
  (forall m, reasoning_mode self <> Member m) ->
  exists e, _orchestrate self d p = Raise e /\ exn_name e = "InvalidModeError".

(* ===================================================================== *)
(** ** Further notions                                                    *)
(* ===================================================================== *)

(** A digit of a lower-case hexadecimal text. *)
Definition is_lower_hex (c : ascii) : bool :=
  let n := N_of_ascii c in
  ((48 <=? n)%N && (n <=? 57)%N) || ((97 <=? n)%N && (n <=? 102)%N).

Definition hex_text (n : nat) (s : string) : Prop :=
  String.length s = n /\ forallb is_lower_hex (list_ascii_of_string s) = true.

(** What [default=str] makes of a value: every object that is not of a
    JSON type is replaced by the text [str()] returns on it. *)
Fixpoint stringified (v : pyval) : pyval :=
  match v with
  | PList xs => PList (map stringified xs)
  | PDict items => PDict (map (fun kv => (fst kv, stringified (snd kv))) items)
  | PObj s _ => PStr s
  | _ => v
  end.

Definition stringified_items (d : pydict) : pydict :=
  map (fun kv => (fst kv, stringified (snd kv))) d.

(** A payload that holds an object, here a [Decimal], and its text. *)
Definition payload_decimal : pydict :=
  [ ("amount", PObj "10.50" "Decimal('10.50')"); ("currency", PStr "EUR") ].

Definition payload_text : pydict :=
  [ ("amount", PStr "10.50"); ("currency", PStr "EUR") ].

(** The dictionary [verify_output] hashes. *)
Definition verified_items (out : HybridOutput.t) : pydict :=
  [ ("output", HybridOutput.output out);
    ("reasoning_path", HybridOutput.reasoning_path out);
    ("confidence_score", HybridOutput.confidence_score out) ].

(** Records without the entries the fusion reads, and records that differ
    from the scenario's in entries the fusion does not read. *)
Definition deterministic_unverified : pydict :=
  [ ("verified", PBool false);
    ("reasoning", PStr "rule R3 satisfied");
    ("rule", PStr "R3");
    ("decision", PStr "APPROVED") ].

Definition probabilistic_approving : pydict :=
  [ ("reasoning", PStr "anomaly score high");
    ("decision", PStr "APPROVED");
    ("confidence", PFloat 0.3) ].

(** An output of [process] with its unverified fields rewritten. *)
Definition tampered (out : HybridOutput.t) : HybridOutput.t :=
  {| HybridOutput.output := HybridOutput.output out;
     HybridOutput.reasoning_path := HybridOutput.reasoning_path out;
     HybridOutput.confidence_score := HybridOutput.confidence_score out;
     HybridOutput.formal_verification := negb (HybridOutput.formal_verification out);
     HybridOutput.attestation_hash := None;
     HybridOutput.symbolic_contribution := PFloat 1.0;
     HybridOutput.probabilistic_contribution := PFloat 1.0;
     HybridOutput.compliance_verified := false |}.

(** The output of [process] in HYBRID mode with attestation. *)
Definition approved_output : HybridOutput.t :=
  {| HybridOutput.output := PStr "APPROVED";
     HybridOutput.reasoning_path :=
       PStr "Symbolic: Constraint satisfaction verified via formal logic; Probabilistic: Pattern recognition confidence 96%";
     HybridOutput.confidence_score := PFloat 0.96;
     HybridOutput.formal_verification := true;
     HybridOutput.attestation_hash :=
       Some "ead27dcfc959babdd9de3840fee0de945bfa55f9a18a1d0795cd207a241903c7";
     HybridOutput.symbolic_contribution := PFloat 0.6;
     HybridOutput.probabilistic_contribution := PFloat 0.4;
     HybridOutput.compliance_verified := true |}.

(* ===================================================================== *)
(** ** Properties of the library functions                                *)
(* ===================================================================== *)

Example sha256_abc :
  sha256_hex "abc" = "ba7816bf8f01cfea414140de5dae2223b00361a396177a9cb410ff61f20015ad".
Proof. vm_compute. reflexivity. Qed.

Example sha256_empty :
  sha256_hex "" = "e3b0c44298fc1c149afbf4c8996fb92427ae41e4649b934ca495991b7852b855".
Proof. vm_compute. reflexivity. Qed.

Example float_repr_examples :
  map float_repr [0.96; 0.6; 0.4; 0.5; 0.3; 0.0; 1.0; 0.1; 1e16; 1e-5; 5e-324; -2.5]%float
  = ["0.96"; "0.6"; "0.4"; "0.5"; "0.3"; "0.0"; "1.0"; "0.1"; "1e+16"; "1e-05"; "5e-324"; "-2.5"].
Proof. vm_compute. reflexivity. Qed.

Example dumps_sorts_keys :
  dumps (PDict [ ("b", PList [PInt 1; PInt (-2); PFloat 2.5; PNone; PBool true]);
                 ("a", PDict [("k2", PStr "v"); ("k1", PFloat 1e16)]);
                 ("B", PFloat (-0.0)) ])
  = json_text "{'B': -0.0, 'a': {'k1': 1e+16, 'k2': 'v'}, 'b': [1, -2, 2.5, null, true]}".
Proof. vm_compute. reflexivity. Qed.

Example py_repr_keeps_insertion_order :
  py_repr (PDict [ ("b", PList [PInt 1; PNone; PBool true]);
                   ("a", PDict [("k2", PStr "v"); ("k1", PFloat 1e16)]) ])
  = "{'b': [1, None, True], 'a': {'k2': 'v', 'k1': 1e+16}}".
Proof. vm_compute. reflexivity. Qed.

Lemma unescape_escape (c : ascii) (rest : string) :
  unescape_head (escape_char c ++ rest) = Some (c, rest).
Proof.
  destruct c as [[] [] [] [] [] [] [] []]; reflexivity.
Qed.

Lemma utf8_head_encode (c : ascii) (rest : list byte) :
  utf8_head (encode_char c ++ rest)%list = Some (c, rest).
Proof.
  destruct c as [[] [] [] [] [] [] [] []]; reflexivity.
Qed.

(** *** Texts *)

Lemma append_cons (c : ascii) (a b : string) : String c a ++ b = String c (a ++ b).
Proof. reflexivity. Qed.

Lemma append_nil_r (s : string) : s ++ "" = s.
Proof.
  induction s as [|c s IH]; [reflexivity |].
  now rewrite append_cons, IH.
Qed.

Lemma append_assoc (a b c : string) : (a ++ b) ++ c = a ++ (b ++ c).
Proof.
  induction a as [|x a IH]; [reflexivity |].
  now rewrite !append_cons, IH.
Qed.

Lemma length_append (a b : string) :
  String.length (a ++ b) = (String.length a + String.length b)%nat.
Proof.
  induction a as [|x a IH]; [reflexivity |].
  rewrite append_cons. cbn [String.length]. now rewrite IH.
Qed.

Lemma append_inv_head (p a b : string) : p ++ a = p ++ b -> a = b.
Proof.
  induction p as [|x p IH]; intros E; [exact E |].
  rewrite !append_cons in E. injection E as E. now apply IH.
Qed.

Lemma append_inv_tail (a b c : string) : a ++ c = b ++ c -> a = b.
Proof.
  revert b. induction a as [|x a IH]; intros [|y b] E.
  - reflexivity.
  - apply (f_equal String.length) in E. rewrite !length_append in E.
    cbn [String.length] in E. lia.
  - apply (f_equal String.length) in E. rewrite !length_append in E.
    cbn [String.length] in E. lia.
  - rewrite !append_cons in E. injection E as -> E. f_equal. now apply IH.
Qed.

Lemma concat_empty_cons (x : string) (l : list string) :
  String.concat "" (x :: l) = x ++ String.concat "" l.
Proof. destruct l; [symmetry; apply append_nil_r | reflexivity]. Qed.

Lemma concat_map_cons (f : ascii -> string) (c : ascii) (s : string) :
  concat_map f (String c s) = f c ++ concat_map f s.
Proof. unfold concat_map. cbn [list_ascii_of_string map]. apply concat_empty_cons. Qed.

(** Escaping loses nothing: two texts with the same escaped form are equal. *)
Lemma escape_inj (s t : string) :
  concat_map escape_char s = concat_map escape_char t -> s = t.
Proof.
  revert t. induction s as [|c s IH]; intros [|d t] E.
  - reflexivity.
  - rewrite concat_map_cons in E. apply (f_equal unescape_head) in E.
    rewrite unescape_escape in E. discriminate E.
  - rewrite concat_map_cons in E. apply (f_equal unescape_head) in E.
    rewrite unescape_escape in E. discriminate E.
  - rewrite !concat_map_cons in E. apply (f_equal unescape_head) in E.
    rewrite !unescape_escape in E. injection E as -> E. f_equal. now apply IH.
Qed.

Lemma encode_basestring_ascii_inj (s t : string) :
  encode_basestring_ascii s = encode_basestring_ascii t -> s = t.
Proof.
  unfold encode_basestring_ascii. intros E. injection E as E.
  apply append_inv_tail in E. now apply escape_inj.
Qed.

(** So does the UTF-8 encoding. *)
Lemma encode_cons (c : ascii) (s : string) :
  encode (String c s) = (encode_char c ++ encode s)%list.
Proof. reflexivity. Qed.

Lemma encode_inj (s t : string) : encode s = encode t -> s = t.
Proof.
  revert t. induction s as [|c s IH]; intros [|d t] E.
  - reflexivity.
  - rewrite encode_cons in E. apply (f_equal utf8_head) in E.
    rewrite utf8_head_encode in E. discriminate E.
  - rewrite encode_cons in E. apply (f_equal utf8_head) in E.
    rewrite utf8_head_encode in E. discriminate E.
  - rewrite !encode_cons in E. apply (f_equal utf8_head) in E.
    rewrite !utf8_head_encode in E. injection E as -> E. f_equal. now apply IH.
Qed.

(** *** The encoder on dictionaries *)

Lemma dumps_dict (items : pydict) :
  dumps (PDict items)
  = "{" ++ String.concat ", "
             (map render_item
                  (sorted_items (map (fun kv => (fst kv, dumps (snd kv))) items)))
        ++ "}".
Proof. reflexivity. Qed.

(** Sorting the items and then rendering the values, as the encoder does,
    gives the text [dumps] builds by rendering first. *)
Lemma insert_item_map_values {A B : Type} (f : A -> B) (x : string * A) (l : list (string * A)) :
  insert_item (fst x, f (snd x)) (map (fun kv => (fst kv, f (snd kv))) l)
  = map (fun kv => (fst kv, f (snd kv))) (insert_item x l).
Proof.
  induction l as [|y l IH]; [reflexivity |].
  cbn [map insert_item fst snd]. destruct (String.ltb (fst y) (fst x)).
  - cbn [map]. now rewrite IH.
  - reflexivity.
Qed.

Lemma sorted_items_map_values {A B : Type} (f : A -> B) (l : list (string * A)) :
  sorted_items (map (fun kv => (fst kv, f (snd kv))) l)
  = map (fun kv => (fst kv, f (snd kv))) (sorted_items l).
Proof.
  induction l as [|x l IH]; [reflexivity |].
  cbn [map sorted_items]. rewrite IH. apply insert_item_map_values.
Qed.

Lemma dumps_dict_sorted_first (items : pydict) :
  dumps (PDict items)
  = "{" ++ String.concat ", "
             (map (fun kv => encode_basestring_ascii (fst kv) ++ ": " ++ dumps (snd kv))
                  (sorted_items items))
        ++ "}".
Proof.
  rewrite dumps_dict, sorted_items_map_values, map_map. reflexivity.
Qed.

(** *** Timestamps *)

Example isoformat_examples :
  map datetime.isoformat [new_year; new_year_1us; new_year_1s]
  = ["2024-01-01T00:00:00"; "2024-01-01T00:00:00.000001"; "2024-01-01T00:00:01"].
Proof. reflexivity. Qed.

Lemma append_inj_length (a a' b b' : string) :
  String.length a = String.length a' -> a ++ b = a' ++ b' -> a = a' /\ b = b'.
Proof.
  revert a'. induction a as [|x a IH]; intros [|y a'] L E; try discriminate L.
  - split; [reflexivity | exact E].
  - rewrite !append_cons in E. injection E as -> E. injection L as L.
    destruct (IH a' L E) as [-> ->]. split; reflexivity.
Qed.

Lemma zfill_length (w : nat) (n : Z) : String.length (datetime.zfill w n) = w.
Proof.
  revert n. induction w as [|w IH]; intros n; [reflexivity |].
  cbn [datetime.zfill]. rewrite length_append, IH. unfold chr. cbn [String.length]. lia.
Qed.

Lemma digit_inj (d d' : Z) :
  0 <= d < 10 -> 0 <= d' < 10 -> datetime.digit d = datetime.digit d' -> d = d'.
Proof.
  intros R R' E. apply (f_equal N_of_ascii) in E. unfold datetime.digit in E.
  rewrite !N_ascii_embedding in E by lia. lia.
Qed.

Lemma zfill_inj (w : nat) (n n' : Z) :
  0 <= n < 10 ^ Z.of_nat w -> 0 <= n' < 10 ^ Z.of_nat w ->
  datetime.zfill w n = datetime.zfill w n' -> n = n'.
Proof.
  revert n n'. induction w as [|w IH]; intros n n' R R' E.
  - cbn in R, R'. lia.
  - cbn [datetime.zfill] in E.
    apply append_inj_length in E as [E1 E2]; [| now rewrite !zfill_length].
    rewrite Nat2Z.inj_succ, Z.pow_succ_r in R, R' by lia.
    assert (0 <= n / 10 < 10 ^ Z.of_nat w) as Q
      by (split; [apply Z.div_pos; lia | apply Z.div_lt_upper_bound; lia]).
    assert (0 <= n' / 10 < 10 ^ Z.of_nat w) as Q'
      by (split; [apply Z.div_pos; lia | apply Z.div_lt_upper_bound; lia]).
    apply (IH _ _ Q Q') in E1.
    injection E2 as E2. apply digit_inj in E2; [| apply Z.mod_pos_bound; lia ..].
    rewrite (Z.div_mod n 10), (Z.div_mod n' 10) by lia. lia.
Qed.

Lemma in_range_bounds (d : datetime.t) :
  datetime.in_range d = true ->
  0 <= datetime.year d < 10 ^ 4 /\ 0 <= datetime.month d < 10 ^ 2
  /\ 0 <= datetime.day d < 10 ^ 2 /\ 0 <= datetime.hour d < 10 ^ 2
  /\ 0 <= datetime.minute d < 10 ^ 2 /\ 0 <= datetime.second d < 10 ^ 2
  /\ 0 <= datetime.microsecond d < 10 ^ 6.
Proof.
  unfold datetime.in_range. rewrite !andb_true_iff, !Z.leb_le. lia.
Qed.

Lemma isoformat_inj (d d' : datetime.t) :
  datetime.in_range d = true -> datetime.in_range d' = true ->
  datetime.isoformat d = datetime.isoformat d' -> d = d'.
Proof.
  intros R R'. apply in_range_bounds in R, R'.
  destruct d as [y m dd h mi s us], d' as [y' m' dd' h' mi' s' us'].
  cbn [datetime.year datetime.month datetime.day datetime.hour datetime.minute
       datetime.second datetime.microsecond] in R, R'.
  unfold datetime.isoformat.
  cbn [datetime.year datetime.month datetime.day datetime.hour datetime.minute
       datetime.second datetime.microsecond].
  intros E.
  apply append_inj_length in E as [Ey E]; [| now rewrite !zfill_length].
  apply append_inj_length in E as [_ E]; [| reflexivity].
  apply append_inj_length in E as [Em E]; [| now rewrite !zfill_length].
  apply append_inj_length in E as [_ E]; [| reflexivity].
  apply append_inj_length in E as [Ed E]; [| now rewrite !zfill_length].
  apply append_inj_length in E as [_ E]; [| reflexivity].
  apply append_inj_length in E as [Eh E]; [| now rewrite !zfill_length].
  apply append_inj_length in E as [_ E]; [| reflexivity].
  apply append_inj_length in E as [Emi E]; [| now rewrite !zfill_length].
  apply append_inj_length in E as [_ E]; [| reflexivity].
  apply append_inj_length in E as [Es E]; [| now rewrite !zfill_length].
  apply (zfill_inj 4) in Ey; [| lia ..].
  apply (zfill_inj 2) in Em; [| lia ..].
  apply (zfill_inj 2) in Ed; [| lia ..].
  apply (zfill_inj 2) in Eh; [| lia ..].
  apply (zfill_inj 2) in Emi; [| lia ..].
  apply (zfill_inj 2) in Es; [| lia ..].
  subst. f_equal.
  destruct (Z.eqb_spec us 0) as [-> | N], (Z.eqb_spec us' 0) as [-> | N'];
    try reflexivity; try discriminate E.
  apply append_inj_length in E as [_ E]; [| reflexivity].
  apply (zfill_inj 6) in E; [exact E | lia ..].
Qed.

(* ===================================================================== *)
(** ** Properties of the attestation engine                               *)
(* ===================================================================== *)

Lemma attestation_str_shape (output : pydict) (metadata : option pydict) (now : datetime.t) :
  attestation_str output metadata now
  = attestation_prefix output metadata
    ++ encode_basestring_ascii (datetime.isoformat now) ++ "}".
Proof.
  unfold attestation_str, attestation_prefix.
  rewrite (dumps_dict [_; _; _]). cbn [map fst snd].
  change (dumps (PStr (datetime.isoformat now)))
    with (encode_basestring_ascii (datetime.isoformat now)).
  generalize (dumps (PDict output)) (dumps (PDict (or_empty metadata)))
             (encode_basestring_ascii (datetime.isoformat now)).
  intros a b c.
  change (sorted_items [("output", a); ("metadata", b); ("timestamp", c)])
    with [("metadata", b); ("output", a); ("timestamp", c)].
  cbn [map String.concat render_item fst snd].
  rewrite !append_assoc. reflexivity.
Qed.

Lemma generate_attestation_digest (self : t) (output : pydict) (metadata : option pydict)
    (now : datetime.t) (h : store) :
  fst (generate_attestation self output metadata now h)
  = sha256_hex (attestation_str output metadata now).
Proof. reflexivity. Qed.

Lemma verify_attestation_digest (self : t) (output : pydict) (digest : string)
    (metadata : option pydict) (now : datetime.t) :
  verify_attestation self output digest metadata now
  = String.eqb (sha256_hex (attestation_str output metadata now)) digest.
Proof. reflexivity. Qed.

Lemma attestation_str_inj (output : pydict) (metadata : option pydict) (now now' : datetime.t) :
  datetime.in_range now = true -> datetime.in_range now' = true ->
  attestation_str output metadata now = attestation_str output metadata now' -> now = now'.
Proof.
  intros R R'. rewrite !attestation_str_shape. intros E.
  apply append_inv_head, append_inv_tail in E.
  apply encode_basestring_ascii_inj in E. now apply isoformat_inj.
Qed.

Example attestation_str_fixed_timestamp :
  attestation_str [("decision", PStr "APPROVED")] None new_year
  = json_text "{'metadata': {}, 'output': {'decision': 'APPROVED'}, 'timestamp': '2024-01-01T00:00:00'}".
Proof. vm_compute. reflexivity. Qed.

(** The scenario of the specification: the same payload hashed twice with
    the same fixed timestamp gives the same digest, and one microsecond later
    another one. *)
Example digest_fixed_timestamp :
  fst (generate_attestation engine0 [("decision", PStr "APPROVED")] (Some []) new_year store0)
  = "dd123d28ff94826e411a9fcb4483b775e28ad9b0722c16f9cb62687b3d89004f"
  /\ fst (generate_attestation engine0 [("decision", PStr "APPROVED")] None new_year store1)
     = "dd123d28ff94826e411a9fcb4483b775e28ad9b0722c16f9cb62687b3d89004f"
  /\ fst (generate_attestation engine0 [("decision", PStr "APPROVED")] None new_year_1us store0)
     = "c48b6133411b6652b28cb57da75268721b453790e15550f2360120c7f9f8cd9b".
Proof. vm_compute. repeat split; reflexivity. Qed.

Example verify_one_microsecond_later :
  let digest :=
    fst (generate_attestation engine0 [("decision", PStr "APPROVED")] None new_year store0) in
  verify_attestation engine0 [("decision", PStr "APPROVED")] digest None new_year_1us = false
  /\ verify_attestation engine0 [("decision", PStr "APPROVED")] digest None new_year = true.
Proof. vm_compute. split; reflexivity. Qed.

(** C3. Verifying the digest that [generate_attestation] returned, for the
    same payload and metadata, answers [true] exactly when the timestamp
    sampled by the verification is the one sampled by the generation, the
    only other way being that SHA-256 maps the two different canonical byte
    sequences to one digest: with a different timestamp the answer is
    [false] unless the two hashed sequences collide. *)
Theorem verify_after_generate (self : t) (output : pydict) (metadata : option pydict)
    (now_generate now_verify : datetime.t) (h : store) :
  datetime.in_range now_generate = true ->
  datetime.in_range now_verify = true ->
  verify_attestation self output
    (fst (generate_attestation self output metadata now_generate h)) metadata now_verify
  = true
  <-> now_generate = now_verify
      \/ sha256_collision (encode (attestation_str output metadata now_verify))
                          (encode (attestation_str output metadata now_generate)).
Proof.
  intros Rg Rv. rewrite verify_attestation_digest, generate_attestation_digest.
  rewrite String.eqb_eq. unfold sha256_hex, sha256_collision. split.
  - intros E.
    destruct (string_dec (datetime.isoformat now_generate) (datetime.isoformat now_verify))
      as [Ets | Ets].
    + left. now apply isoformat_inj.
    + right. split; [| exact E].
      intros Eb. apply encode_inj, attestation_str_inj in Eb; [| assumption ..].
      congruence.
  - intros [-> | [_ E]]; [reflexivity | exact E].
Qed.

Lemma verify_after_generate_witness :
  datetime.in_range new_year = true
  /\ datetime.in_range new_year_1us = true
  /\ (verify_attestation engine0 [("decision", PStr "APPROVED")]
        (fst (generate_attestation engine0 [("decision", PStr "APPROVED")] None new_year store0))
        None new_year_1us = true
      <-> new_year = new_year_1us
          \/ sha256_collision
               (encode (attestation_str [("decision", PStr "APPROVED")] None new_year_1us))
               (encode (attestation_str [("decision", PStr "APPROVED")] None new_year))).
Proof.
  split; [reflexivity |]. split; [reflexivity |].
  apply (verify_after_generate engine0 [("decision", PStr "APPROVED")] None
           new_year new_year_1us store0); reflexivity.
Defined.

(** *** Order of the keys *)

Lemma ascii_compare_refl (x : ascii) : Ascii.compare x x = Eq.
Proof. unfold Ascii.compare. apply N.compare_refl. Qed.

Lemma ascii_compare_lt_trans (x y z : ascii) :
  Ascii.compare x y = Lt -> Ascii.compare y z = Lt -> Ascii.compare x z = Lt.
Proof.
  unfold Ascii.compare. rewrite !N.compare_lt_iff. apply N.lt_trans.
Qed.

Lemma compare_lt_trans (a b c : string) :
  String.compare a b = Lt -> String.compare b c = Lt -> String.compare a c = Lt.
Proof.
  revert b c. induction a as [|x a IH]; intros [|y b] [|z c]; cbn [String.compare];
    try discriminate; try reflexivity.
  destruct (Ascii.compare x y) eqn:Exy; try discriminate;
    destruct (Ascii.compare y z) eqn:Eyz; try discriminate; intros Hab Hbc.
  - apply Ascii.compare_eq_iff in Exy, Eyz. subst. rewrite ascii_compare_refl. eauto.
  - apply Ascii.compare_eq_iff in Exy. subst. now rewrite Eyz.
  - apply Ascii.compare_eq_iff in Eyz. subst. now rewrite Exy.
  - now rewrite (ascii_compare_lt_trans x y z).
Qed.

Lemma ltb_lt (a b : string) : String.ltb a b = true <-> String.compare a b = Lt.
Proof. unfold String.ltb. destruct (String.compare a b); split; congruence. Qed.

Lemma ltb_asym (a b : string) : String.ltb a b = true -> String.ltb b a = false.
Proof.
  unfold String.ltb. rewrite (String.compare_antisym b a).
  destruct (String.compare a b); cbn; congruence.
Qed.

Lemma ltb_total (a b : string) : a <> b -> String.ltb a b = false -> String.ltb b a = true.
Proof.
  unfold String.ltb. rewrite (String.compare_antisym b a). intros N.
  destruct (String.compare a b) eqn:E; cbn; try congruence.
  apply String.compare_eq_iff in E. congruence.
Qed.

Lemma ltb_trans (a b c : string) :
  String.ltb a b = true -> String.ltb b c = true -> String.ltb a c = true.
Proof. rewrite !ltb_lt. apply compare_lt_trans. Qed.

Lemma ltb_le_lt (a b c : string) :
  String.ltb b a = false -> String.ltb b c = true -> String.ltb a c = true.
Proof.
  intros Hba Hbc. destruct (string_dec a b) as [-> | N]; [exact Hbc |].
  apply ltb_trans with b; [| exact Hbc]. apply ltb_total; [congruence | exact Hba].
Qed.

(** *** [sorted] on distinct keys does not depend on the order of its input *)

Lemma insert_item_comm {A : Type} (x y : string * A) (s : list (string * A)) :
  fst x <> fst y ->
  insert_item x (insert_item y s) = insert_item y (insert_item x s).
Proof.
  intros N. induction s as [|z s IH]; cbn [insert_item].
  - destruct (String.ltb (fst y) (fst x)) eqn:Eyx, (String.ltb (fst x) (fst y)) eqn:Exy;
      try reflexivity.
    + apply ltb_asym in Eyx. congruence.
    + apply ltb_total in Eyx; congruence.
  - destruct (String.ltb (fst z) (fst y)) eqn:Ezy, (String.ltb (fst z) (fst x)) eqn:Ezx;
      cbn [insert_item]; rewrite ?Ezy, ?Ezx.
    + now rewrite IH.
    + rewrite (ltb_le_lt (fst x) (fst z) (fst y) Ezx Ezy).
      cbn [insert_item]. rewrite ?Ezy, ?Ezx. reflexivity.
    + rewrite (ltb_le_lt (fst y) (fst z) (fst x) Ezy Ezx).
      cbn [insert_item]. rewrite ?Ezy, ?Ezx. reflexivity.
    + destruct (String.ltb (fst y) (fst x)) eqn:Eyx, (String.ltb (fst x) (fst y)) eqn:Exy;
        cbn [insert_item]; rewrite ?Ezy, ?Ezx; try reflexivity.
      * apply ltb_asym in Eyx. congruence.
      * apply ltb_total in Eyx; congruence.
Qed.

Lemma sorted_items_perm {A : Type} (l l' : list (string * A)) :
  Permutation l l' -> NoDup (map fst l) -> sorted_items l = sorted_items l'.
Proof.
  induction 1 as [| x l l' _ IH | x y l | l l' l'' H1 IH1 H2 IH2]; intros D.
  - reflexivity.
  - cbn [sorted_items]. cbn [map] in D. apply NoDup_cons in D as [_ D]. now rewrite IH.
  - cbn [sorted_items]. apply insert_item_comm.
    cbn [map] in D. apply NoDup_cons in D as [N _].
    apply not_elem_of_cons in N as [N _]. congruence.
  - rewrite IH1 by exact D. apply IH2.
    now rewrite <- (Permutation_map fst H1).
Qed.

(** *** The encoder does not see the insertion order *)

Lemma pyval_ind (P : pyval -> Prop) :
  P PNone ->
  (forall b, P (PBool b)) ->
  (forall n, P (PInt n)) ->
  (forall x, P (PFloat x)) ->
  (forall s, P (PStr s)) ->
  (forall xs, Forall P xs -> P (PList xs)) ->
  (forall items, Forall (fun kv => P (snd kv)) items -> P (PDict items)) ->
  (forall s r, P (PObj s r)) ->
  forall v, P v.
Proof.
  intros HNone HBool HInt HFloat HStr HList HDict HObj.
  fix IH 1. intros [| b | n | x | s | xs | items | s r].
  - exact HNone.
  - apply HBool.
  - apply HInt.
  - apply HFloat.
  - apply HStr.
  - apply HList. induction xs as [|v xs IHxs]; constructor; [apply IH | exact IHxs].
  - apply HDict. induction items as [|[k v] items IHitems]; constructor;
      [apply IH | exact IHitems].
  - apply HObj.
Qed.

Lemma distinct_NoDup (keys : list string) : distinct keys = true -> NoDup keys.
Proof.
  induction keys as [|k keys IH]; cbn [distinct]; intros D; constructor.
  - apply andb_true_iff in D as [D _]. apply negb_true_iff in D.
    intros Hin. apply list_elem_of_In in Hin.
    assert (existsb (String.eqb k) keys = true) as E; [| congruence].
    apply existsb_exists. exists k. split; [exact Hin | apply String.eqb_refl].
  - apply andb_true_iff in D as [_ D]. auto.
Qed.

Lemma map_fst_rendered (items : pydict) :
  map fst (map (fun kv => (fst kv, dumps (snd kv))) items) = map fst items.
Proof. rewrite map_map. reflexivity. Qed.

Lemma dumps_same (a b : pyval) :
  well_formed a = true -> same_value a b -> dumps a = dumps b.
Proof.
  revert b. induction a as [| b0 | n | x | s | xs IH | items IH | s r] using pyval_ind;
    intros b W S; inversion S; subst; try reflexivity.
  - (* lists *)
    cbn [dumps]. do 3 f_equal.
    cbn [well_formed] in W. rewrite forallb_forall in W.
    match goal with H : Forall2 same_value xs _ |- _ => rename H into F end.
    clear S. induction F as [| x y xs ys Sxy F IHF]; [reflexivity |].
    cbn [map]. apply Forall_cons in IH as [IHx IHxs]. f_equal.
    + apply IHx; [apply W; now left | exact Sxy].
    + apply IHF; [exact IHxs | intros v Hv; apply W; now right].
  - (* dictionaries *)
    rewrite !dumps_dict. do 4 f_equal.
    cbn [well_formed] in W. apply andb_true_iff in W as [D W].
    rewrite forallb_forall in W.
    match goal with H : Permutation items ?p |- _ => rename H into Hp end.
    match goal with H : Forall2 _ _ _ |- _ => rename H into F end.
    rewrite (sorted_items_perm _ _ (Permutation_map _ Hp))
      by (rewrite map_fst_rendered; now apply distinct_NoDup).
    f_equal.
    assert (Forall (fun kv => forall b, well_formed (snd kv) = true ->
                                    same_value (snd kv) b -> dumps (snd kv) = dumps b)
                   permuted) as IH'.
    { eapply Permutation_Forall; [exact Hp | exact IH]. }
    assert (forall kv, In kv permuted -> well_formed (snd kv) = true) as W'.
    { intros kv Hin. apply W. eapply Permutation_in; [symmetry; exact Hp | exact Hin]. }
    clear - F IH' W'.
    induction F as [| x y l l' [Ek Sv] F IHF]; [reflexivity |].
    cbn [map]. apply Forall_cons in IH' as [IHx IHl]. f_equal.
    + rewrite Ek. f_equal. apply IHx; [apply W'; now left | exact Sv].
    + apply IHF; [exact IHl | intros kv Hin; apply W'; now right].
Qed.

Lemma or_empty_some (d : pydict) : or_empty (Some d) = d.
Proof. destruct d; reflexivity. Qed.

Lemma dumps_same_metadata (m m' : option pydict) :
  well_formed_metadata m = true -> same_metadata m m' ->
  dumps (PDict (or_empty m)) = dumps (PDict (or_empty m')).
Proof.
  destruct m as [d|], m' as [d'|]; cbn [same_metadata well_formed_metadata];
    try contradiction; [| reflexivity].
  rewrite !or_empty_some. apply dumps_same.
Qed.

(** C4. With the timestamp held fixed, a payload and a metadata mapping
    serialize to the same canonical byte sequence whatever the insertion
    order of their keys, at every depth; so [generate_attestation] returns
    the same digest for both orders, and [verify_attestation] recomputes
    that very digest from the reordered payload. *)
Theorem canonical_encoding (self : t) (output output' : pydict)
    (metadata metadata' : option pydict) (now : datetime.t) (h : store) :
  well_formed (PDict output) = true ->
  well_formed_metadata metadata = true ->
  same_value (PDict output) (PDict output') ->
  same_metadata metadata metadata' ->
  encode (attestation_str output metadata now)
  = encode (attestation_str output' metadata' now)
  /\ fst (generate_attestation self output metadata now h)
     = fst (generate_attestation self output' metadata' now h)
  /\ verify_attestation self output'
       (fst (generate_attestation self output metadata now h)) metadata' now = true.
Proof.
  intros Wo Wm So Sm.
  assert (attestation_str output metadata now = attestation_str output' metadata' now) as E.
  { rewrite !attestation_str_shape. unfold attestation_prefix.
    now rewrite (dumps_same _ _ Wo So), (dumps_same_metadata _ _ Wm Sm). }
  rewrite verify_attestation_digest, !generate_attestation_digest, E.
  repeat split. apply String.eqb_refl.
Qed.

Lemma payload_ab_same_ba : same_value (PDict payload_ab) (PDict payload_ba).
Proof.
  apply same_dict with
    (permuted := [ ("tags", PList [PInt 1; PNone]);
                   ("detail", PDict [("rule", PStr "R3"); ("score", PFloat 0.5)]);
                   ("decision", PStr "APPROVED") ]).
  - unfold payload_ab.
    eapply perm_trans; [apply perm_skip, perm_swap |].
    eapply perm_trans; [apply perm_swap |].
    apply perm_skip, perm_swap.
  - repeat constructor.
    apply same_dict with (permuted := [("score", PFloat 0.5); ("rule", PStr "R3")]).
    + apply perm_swap.
    + repeat constructor.
Defined.

Lemma canonical_encoding_witness :
  well_formed (PDict payload_ab) = true
  /\ same_value (PDict payload_ab) (PDict payload_ba)
  /\ encode (attestation_str payload_ab
                (Some [("policy", PStr "v1"); ("framework", PStr "ISO42001")]) new_year)
     = encode (attestation_str payload_ba
                 (Some [("framework", PStr "ISO42001"); ("policy", PStr "v1")]) new_year).
Proof.
  split; [reflexivity |]. split; [exact payload_ab_same_ba |].
  apply (canonical_encoding engine0 payload_ab payload_ba
           (Some [("policy", PStr "v1"); ("framework", PStr "ISO42001")])
           (Some [("framework", PStr "ISO42001"); ("policy", PStr "v1")])
           new_year store0).
  - reflexivity.
  - reflexivity.
  - exact payload_ab_same_ba.
  - cbn [same_metadata].
    apply same_dict with (permuted := [("framework", PStr "ISO42001"); ("policy", PStr "v1")]).
    + apply perm_swap.
    + repeat constructor.
Defined.

(** *** The log *)

Lemma init_log (strategy : string) (h : store) :
  snd (__init__ strategy h) !! attestation_log (fst (__init__ strategy h)) = Some [].
Proof. unfold __init__. cbn [fst snd attestation_log]. apply lookup_insert_eq. Qed.

Lemma init_fresh (strategy : string) (h : store) :
  h !! attestation_log (fst (__init__ strategy h)) = None.
Proof.
  unfold __init__. cbn [fst attestation_log].
  apply not_elem_of_dom. apply is_fresh.
Qed.

Lemma list_update_lookup (f : list pyval -> list pyval) (r : loc) (h : store) (l : list pyval) :
  h !! r = Some l -> list_update f r h !! r = Some (f l).
Proof. intros E. unfold list_update. now rewrite lookup_alter_eq, E. Qed.

Lemma list_update_other (f : list pyval -> list pyval) (r r' : loc) (h : store) :
  r <> r' -> list_update f r h !! r' = h !! r'.
Proof. intros N. unfold list_update. now rewrite lookup_alter_ne. Qed.

(** C6. On an engine whose log holds [trail], any sequence of calls leaves
    the log equal to [trail] followed by one entry per [generate_attestation]
    call, in call order: as many new entries as there were such calls, the
    [hash] of each the digest that call returned, its [timestamp] the one the
    call sampled. No call removes or reorders an entry. *)
Theorem audit_trail_append_only (self : t) (cs : list call) (h : store) (trail : list pyval) :
  h !! attestation_log self = Some trail ->
  exists appended : list pyval,
    snd (run self cs h) !! get_audit_trail self = Some (trail ++ appended)%list
    /\ length appended = length (generate_calls cs)
    /\ map (entry_field "hash") appended
       = map (fun s => Some (PStr s)) (digests (fst (run self cs h)))
    /\ map (entry_field "timestamp") appended
       = map (fun c => Some (PStr (datetime.isoformat (snd c)))) (generate_calls cs).
Proof.
  revert h trail. induction cs as [|c cs IH]; intros h trail Hlog.
  - exists []. cbn. rewrite app_nil_r. auto.
  - cbn [run]. destruct c as [output metadata now | output digest metadata now |].
    + cbn [step]. unfold generate_attestation.
      set (entry := PDict _).
      set (h1 := list_append (attestation_log self) entry h).
      assert (h1 !! attestation_log self = Some (trail ++ [entry])%list) as Hlog1.
      { exact (list_update_lookup (fun l => l ++ [entry])%list _ _ trail Hlog). }
      destruct (IH h1 _ Hlog1) as (appended & Hl & Hn & Hh & Ht).
      destruct (run self cs h1) as [rs h2] eqn:Erun. cbn [fst snd] in *.
      exists (entry :: appended). rewrite <- app_assoc in Hl. cbn [app] in Hl.
      repeat split.
      * exact Hl.
      * cbn [length generate_calls]. now rewrite Hn.
      * cbn [map digests]. now rewrite Hh.
      * cbn [map generate_calls snd]. now rewrite Ht.
    + cbn [step]. destruct (IH h _ Hlog) as (appended & Hl & Hn & Hh & Ht).
      destruct (run self cs h) as [rs h2] eqn:Erun. cbn [fst snd] in *.
      exists appended. auto.
    + cbn [step]. destruct (IH h _ Hlog) as (appended & Hl & Hn & Hh & Ht).
      destruct (run self cs h) as [rs h2] eqn:Erun. cbn [fst snd] in *.
      exists appended. auto.
Qed.

Lemma audit_trail_append_only_witness :
  store0 !! attestation_log engine0 = Some []
  /\ exists appended : list pyval,
       snd (run engine0 three_calls store0) !! get_audit_trail engine0 = Some appended
       /\ length appended = 2%nat.
Proof.
  split; [apply init_log |].
  destruct (audit_trail_append_only engine0 three_calls store0 [] (init_log "sha256" ∅))
    as (appended & Hl & Hn & _).
  exists appended. split; [exact Hl | exact Hn].
Defined.

Example store1_log :
  store1 !! attestation_log engine0
  = Some [ PDict [ ("hash", PStr "dd123d28ff94826e411a9fcb4483b775e28ad9b0722c16f9cb62687b3d89004f");
                   ("timestamp", PStr "2024-01-01T00:00:00");
                   ("strategy", PStr "sha256") ] ].
Proof. vm_compute. reflexivity. Qed.

Example store1_cleared :
  list_clear (get_audit_trail engine0) store1 !! attestation_log engine0 = Some [].
Proof. vm_compute. reflexivity. Qed.

(** C8, as stated, fails: [get_audit_trail] returns the list the engine
    appends to, so clearing the returned list empties the log. *)
Lemma audit_trail_is_snapshot_counterexample : ~ audit_trail_is_snapshot engine0 store1.
Proof.
  intros H. specialize (H (fun _ => [])).
  change (list_update (fun _ => []) (get_audit_trail engine0) store1)
    with (list_clear (get_audit_trail engine0) store1) in H.
  rewrite store1_cleared, store1_log in H. discriminate H.
Qed.

(** C8, amended. [get_audit_trail] returns the log itself, in insertion
    order, and the call changes nothing; the list it returns is the one the
    engine appends to, so whatever in-place change [f] a caller makes
    through the returned reference is made to the log of the engine. *)
Theorem audit_trail_is_the_log (self : t) (h : store) (trail : list pyval)
    (f : list pyval -> list pyval) :
  h !! attestation_log self = Some trail ->
  get_audit_trail self = attestation_log self
  /\ h !! get_audit_trail self = Some trail
  /\ snd (step self GetAuditTrail h) = h
  /\ list_update f (get_audit_trail self) h !! attestation_log self = Some (f trail).
Proof.
  intros Hlog. repeat split; try exact Hlog.
  now apply list_update_lookup.
Qed.

Lemma audit_trail_is_the_log_witness :
  store0 !! attestation_log engine0 = Some []
  /\ list_update (fun l => PInt 7 :: l) (get_audit_trail engine0) store0
       !! attestation_log engine0 = Some [PInt 7].
Proof.
  split; [apply init_log |].
  apply (audit_trail_is_the_log engine0 store0 [] (fun l => PInt 7 :: l) (init_log "sha256" ∅)).
Defined.

(* ===================================================================== *)
(** ** Properties of the fusion orchestrator                              *)
(* ===================================================================== *)

(** A model the constructor returned has a mode with a [value]. *)
Lemma init_mode_has_value (axioms weights : option string) (mode : mode_object)
    (attestation : bool) (compliance : string) (self : AxiomHiveHybridModel.t) :
  AxiomHiveHybridModel.__init__ axioms weights mode attestation compliance = Ok self ->
  exists v, mode_value (reasoning_mode self) = Ok v.
Proof.
  unfold AxiomHiveHybridModel.__init__.
  destruct (mode_value mode) as [v | e] eqn:Hv; cbn [bind]; intros E; [| discriminate E].
  injection E as <-. exists v. exact Hv.
Qed.

Lemma getitem_some (d : pydict) (key : string) (v : pyval) :
  lookup_key key d = Some v -> getitem d key = Ok v.
Proof. intros E. unfold getitem. now rewrite E. Qed.

Lemma orchestrate_fusion (self : AxiomHiveHybridModel.t) (d p : pydict) (dec rd rp : pyval) :
  (exists v, mode_value (reasoning_mode self) = Ok v) ->
  mode_is (reasoning_mode self) SYMBOLIC = false ->
  mode_is (reasoning_mode self) PROBABILISTIC = false ->
  lookup_key "decision" d = Some dec ->
  lookup_key "reasoning" d = Some rd ->
  lookup_key "reasoning" p = Some rp ->
  _orchestrate self d p
  = Ok [ ("decision", dec);
         ("confidence", get p "confidence" (PFloat 0.5));
         ("reasoning", PStr ("Symbolic: " ++ py_str rd ++ "; Probabilistic: " ++ py_str rp));
         ("symbolic_weight", PFloat 0.6);
         ("probabilistic_weight", PFloat 0.4) ].
Proof.
  intros [v Hv] Hs Hp Hdec Hrd Hrp. unfold _orchestrate.
  rewrite Hv, Hs, Hp. cbn [bind].
  rewrite (getitem_some _ _ _ Hdec), (getitem_some _ _ _ Hrd), (getitem_some _ _ _ Hrp).
  reflexivity.
Qed.

(** C1. Under HYBRID or VOTING, for records that carry the keys the fusion
    reads, the fused record has the decision of the deterministic record,
    whatever the probabilistic record says; the confidence of the
    probabilistic record, or 0.5 when it has none; the reasoning
    ["Symbolic: {d.reasoning}; Probabilistic: {p.reasoning}"]; and the
    weights 0.6 and 0.4. *)
Theorem fusion_precedence (self : AxiomHiveHybridModel.t) (d p : pydict) (dec rd rp : pyval) :
  reasoning_mode self = Member HYBRID \/ reasoning_mode self = Member VOTING ->
  lookup_key "decision" d = Some dec ->
  lookup_key "reasoning" d = Some rd ->
  lookup_key "reasoning" p = Some rp ->
  exists fused : pydict,
    _orchestrate self d p = Ok fused
    /\ lookup_key "decision" fused = Some dec
    /\ lookup_key "confidence" fused
       = Some (match lookup_key "confidence" p with Some c => c | None => PFloat 0.5 end)
    /\ lookup_key "reasoning" fused
       = Some (PStr ("Symbolic: " ++ py_str rd ++ "; Probabilistic: " ++ py_str rp))
    /\ lookup_key "symbolic_weight" fused = Some (PFloat 0.6)
    /\ lookup_key "probabilistic_weight" fused = Some (PFloat 0.4).
Proof.
  intros Hmode Hdec Hrd Hrp. eexists. split.
  - apply orchestrate_fusion with (dec := dec) (rd := rd) (rp := rp); try assumption;
      destruct Hmode as [-> | ->]; try reflexivity; eexists; reflexivity.
  - repeat split; reflexivity.
Qed.

Lemma fusion_precedence_witness :
  lookup_key "decision" deterministic_R3 = Some (PStr "APPROVED")
  /\ exists fused : pydict,
       _orchestrate (model (Member HYBRID) true) deterministic_R3 probabilistic_anomaly = Ok fused
       /\ lookup_key "decision" fused = Some (PStr "APPROVED")
       /\ lookup_key "confidence" fused = Some (PFloat 0.3)
       /\ lookup_key "reasoning" fused
          = Some (PStr "Symbolic: rule R3 satisfied; Probabilistic: anomaly score high")
       /\ lookup_key "symbolic_weight" fused = Some (PFloat 0.6)
       /\ lookup_key "probabilistic_weight" fused = Some (PFloat 0.4).
Proof.
  split; [reflexivity |].
  apply (fusion_precedence (model (Member HYBRID) true) deterministic_R3 probabilistic_anomaly
           (PStr "APPROVED") (PStr "rule R3 satisfied") (PStr "anomaly score high")).
  - left. reflexivity.
  - reflexivity.
  - reflexivity.
  - reflexivity.
Defined.

Lemma orchestrate_effective (self : AxiomHiveHybridModel.t) (d p : pydict) (v : pyval) :
  mode_value (reasoning_mode self) = Ok v ->
  _orchestrate self d p
  = _orchestrate (model (effective_mode (reasoning_mode self)) (attestation_enabled self)) d p.
Proof.
  destruct self as [axioms weights mode attestation compliance e1 e2 e3].
  cbn [reasoning_mode attestation_enabled].
  destruct mode as [[] | [w |] eq]; intros Hv; try discriminate Hv; try reflexivity.
  unfold _orchestrate, model. cbn [reasoning_mode mode_value bind mode_is effective_mode].
  destruct (eq SYMBOLIC); [reflexivity |]. destruct (eq PROBABILISTIC); reflexivity.
Qed.

Lemma process_effective (self : AxiomHiveHybridModel.t) (input_data : pyval)
    (require_explanation verify_constraints : bool) (v : pyval) :
  mode_value (reasoning_mode self) = Ok v ->
  process self input_data require_explanation verify_constraints
  = process (model (effective_mode (reasoning_mode self)) (attestation_enabled self))
            PNone require_explanation verify_constraints.
Proof.
  intros Hv. unfold process. rewrite (orchestrate_effective self _ _ v Hv). reflexivity.
Qed.

Lemma process_no_value (self : AxiomHiveHybridModel.t) (input_data : pyval)
    (require_explanation verify_constraints : bool) (eq : ReasoningMode -> bool) :
  reasoning_mode self = Foreign None eq ->
  process self input_data require_explanation verify_constraints
  = Raise (AttributeError "value").
Proof. intros E. unfold process, _orchestrate. rewrite E. reflexivity. Qed.

Lemma rejects_own_attestation_all (m : ReasoningMode) (re vc : bool) :
  rejects_own_attestation m re vc = true.
Proof. destruct m, re, vc; vm_compute; reflexivity. Qed.

(** C9. An output that [process] produced with attestation enabled never
    verifies against its own attestation hash: the hash was taken over the
    fused dictionary, and [verify_output] hashes a dictionary with other
    keys. *)
Theorem verify_output_rejects_own_attestation (self : AxiomHiveHybridModel.t)
    (input_data : pyval) (require_explanation verify_constraints : bool)
    (out : HybridOutput.t) :
  attestation_enabled self = true ->
  process self input_data require_explanation verify_constraints = Ok out ->
  exists digest : string,
    HybridOutput.attestation_hash out = Some digest
    /\ verify_output self out digest = false.
Proof.
  intros Hatt Hout.
  destruct (mode_value (reasoning_mode self)) as [v | e] eqn:Hv.
  - rewrite (process_effective self _ _ _ v Hv), Hatt in Hout.
    assert (exists m, effective_mode (reasoning_mode self) = Member m) as [m Hm].
    { destruct (reasoning_mode self) as [m | w eq]; cbn [effective_mode];
        [| destruct (eq SYMBOLIC); [| destruct (eq PROBABILISTIC)]]; eexists; reflexivity. }
    rewrite Hm in Hout.
    pose proof (rejects_own_attestation_all m require_explanation verify_constraints) as R.
    unfold rejects_own_attestation in R. rewrite Hout in R.
    destruct (HybridOutput.attestation_hash out) as [digest |]; [| discriminate R].
    exists digest. split; [reflexivity |].
    apply negb_true_iff in R. exact R.
  - destruct (reasoning_mode self) as [m | [w |] eq] eqn:Hmode; try discriminate Hv.
    rewrite (process_no_value self _ _ _ eq Hmode) in Hout. discriminate Hout.
Qed.

Example process_hybrid :
  process (model (Member HYBRID) true) (PStr "loan application 17") true true
  = Ok {| HybridOutput.output := PStr "APPROVED";
          HybridOutput.reasoning_path :=
            PStr "Symbolic: Constraint satisfaction verified via formal logic; Probabilistic: Pattern recognition confidence 96%";
          HybridOutput.confidence_score := PFloat 0.96;
          HybridOutput.formal_verification := true;
          HybridOutput.attestation_hash :=
            Some "ead27dcfc959babdd9de3840fee0de945bfa55f9a18a1d0795cd207a241903c7";
          HybridOutput.symbolic_contribution := PFloat 0.6;
          HybridOutput.probabilistic_contribution := PFloat 0.4;
          HybridOutput.compliance_verified := true |}.
Proof. vm_compute. reflexivity. Qed.

Example process_symbolic :
  process (model (Member SYMBOLIC) true) (PStr "loan application 17") true false
  = Ok {| HybridOutput.output := PStr "APPROVED";
          HybridOutput.reasoning_path :=
            PStr "Constraint satisfaction verified via formal logic";
          HybridOutput.confidence_score := PFloat 0.0;
          HybridOutput.formal_verification := false;
          HybridOutput.attestation_hash :=
            Some "a250bceab9db89075b81be131a2ecc478b183f7ceef5bf3056049c8c402c2409";
          HybridOutput.symbolic_contribution := PFloat 0.0;
          HybridOutput.probabilistic_contribution := PFloat 0.0;
          HybridOutput.compliance_verified := true |}.
Proof. vm_compute. reflexivity. Qed.

Lemma verify_output_rejects_own_attestation_witness :
  attestation_enabled (model (Member HYBRID) true) = true
  /\ exists out digest,
       process (model (Member HYBRID) true) (PStr "loan application 17") true true = Ok out
       /\ HybridOutput.attestation_hash out = Some digest
       /\ verify_output (model (Member HYBRID) true) out digest = false.
Proof.
  split; [reflexivity |].
  eexists. 
  destruct (verify_output_rejects_own_attestation (model (Member HYBRID) true)
              (PStr "loan application 17") true true _ eq_refl process_hybrid)
    as (digest & Hd & Hv).
  exists digest. split; [exact process_hybrid | split; [exact Hd | exact Hv]].
Defined.

Lemma float_zero_not_one : PFloat 0.0 <> PFloat 1.0.
Proof.
  intros E.
  apply (f_equal (fun v => match v with PFloat x => PrimFloat.eqb x 0 | _ => true end)) in E.
  vm_compute in E. discriminate E.
Qed.

(** C2, as stated, fails: the record is returned as it came, and the
    records of the two pathways carry no weights, so both read as 0.0. *)
Lemma mode_purity_with_weights_counterexample :
  ~ mode_purity_with_weights (model (Member SYMBOLIC) true)
      deterministic_R3 probabilistic_anomaly.
Proof.
  intros [H _]. destruct (H eq_refl) as (r & _ & -> & Hw).
  apply (f_equal fst) in Hw. exact (float_zero_not_one Hw).
Qed.

(** C2, amended. SYMBOLIC returns the deterministic record verbatim and
    PROBABILISTIC the probabilistic record verbatim; no weight is added to
    either, and [process], whose two records carry none, reports both
    contributions as 0.0 in these two modes. *)
Theorem mode_purity (self : AxiomHiveHybridModel.t) (d p : pydict) :
  (reasoning_mode self = Member SYMBOLIC -> _orchestrate self d p = Ok d)
  /\ (reasoning_mode self = Member PROBABILISTIC -> _orchestrate self d p = Ok p)
  /\ (reasoning_mode self = Member SYMBOLIC \/ reasoning_mode self = Member PROBABILISTIC ->
      forall input_data require_explanation verify_constraints,
      exists out : HybridOutput.t,
        process self input_data require_explanation verify_constraints = Ok out
        /\ HybridOutput.symbolic_contribution out = PFloat 0.0
        /\ HybridOutput.probabilistic_contribution out = PFloat 0.0).
Proof.
  split; [| split].
  - intros E. unfold _orchestrate. rewrite E. reflexivity.
  - intros E. unfold _orchestrate. rewrite E. reflexivity.
  - intros E input_data re vc. unfold process, _orchestrate.
    destruct E as [-> | ->]; cbn [mode_value bind mode_is];
      (eexists; split; [reflexivity | split; reflexivity]).
Qed.

Lemma mode_purity_witness :
  _orchestrate (model (Member SYMBOLIC) true) deterministic_R3 probabilistic_anomaly
  = Ok deterministic_R3
  /\ _orchestrate (model (Member PROBABILISTIC) true) deterministic_R3 probabilistic_anomaly
     = Ok probabilistic_anomaly.
Proof.
  split.
  - apply (mode_purity (model (Member SYMBOLIC) true) deterministic_R3 probabilistic_anomaly).
    reflexivity.
  - apply (mode_purity (model (Member PROBABILISTIC) true) deterministic_R3 probabilistic_anomaly).
    reflexivity.
Defined.

(** C5, as stated, fails: a mode object that is no member of the
    enumeration, has a [value] and compares unequal to every member falls
    into the last branch and is fused as HYBRID, without any error. *)
Lemma unknown_mode_fails_fast_counterexample :
  ~ unknown_mode_fails_fast (model (Foreign (Some (PStr "consensus")) default_eq) true)
      deterministic_R3 probabilistic_anomaly.
Proof.
  intros H. destruct H as (e & E & _).
  - intros m. discriminate.
  - vm_compute in E. discriminate E.
Qed.

(** C5, amended. On records that carry the keys the fusion reads, the four
    recognized modes return a result and raise nothing. No mode value makes
    the fusion raise [InvalidModeError], which the code does not have, and
    none is checked against the enumeration. A value outside it raises
    [AttributeError] when it has no [value] attribute; when it has one, it
    is dispatched by what it answers itself to the two comparisons of the
    code: the deterministic record comes back as it is when the object
    answers true to [== SYMBOLIC], the probabilistic record when it answers
    false to that and true to [== PROBABILISTIC], and when it answers false
    to both, as every object without a comparison of its own does, the
    records are fused as HYBRID and VOTING fuse them. *)
Theorem mode_dispatch (self : AxiomHiveHybridModel.t) (d p : pydict) (dec rd rp : pyval) :
  lookup_key "decision" d = Some dec ->
  lookup_key "reasoning" d = Some rd ->
  lookup_key "reasoning" p = Some rp ->
  (forall m, reasoning_mode self = Member m -> exists r, _orchestrate self d p = Ok r)
  /\ (forall v eq, reasoning_mode self = Foreign (Some v) eq ->
      (eq SYMBOLIC = true -> _orchestrate self d p = Ok d)
      /\ (eq SYMBOLIC = false -> eq PROBABILISTIC = true -> _orchestrate self d p = Ok p)
      /\ (eq SYMBOLIC = false -> eq PROBABILISTIC = false ->
          _orchestrate self d p
          = _orchestrate (model (Member HYBRID) (attestation_enabled self)) d p
          /\ _orchestrate self d p
             = _orchestrate (model (Member VOTING) (attestation_enabled self)) d p))
  /\ (forall eq, reasoning_mode self = Foreign None eq ->
      _orchestrate self d p = Raise (AttributeError "value"))
  /\ (forall e, _orchestrate self d p = Raise e -> exn_name e <> "InvalidModeError").
Proof.
  intros Hdec Hrd Hrp. split; [| split; [| split]].
  - intros [] E.
    + exists d. unfold _orchestrate. rewrite E. reflexivity.
    + exists p. unfold _orchestrate. rewrite E. reflexivity.
    + eexists. apply orchestrate_fusion with (dec := dec) (rd := rd) (rp := rp);
        try assumption; rewrite E; try reflexivity. eexists; reflexivity.
    + eexists. apply orchestrate_fusion with (dec := dec) (rd := rd) (rp := rp);
        try assumption; rewrite E; try reflexivity. eexists; reflexivity.
  - intros v eq E. split; [| split].
    + intros Hs. unfold _orchestrate. rewrite E. cbn [mode_value bind mode_is].
      rewrite Hs. reflexivity.
    + intros Hs Hp. unfold _orchestrate. rewrite E. cbn [mode_value bind mode_is].
      rewrite Hs, Hp. reflexivity.
    + intros Hs Hp. split; unfold _orchestrate; rewrite E;
        cbn [mode_value bind mode_is model reasoning_mode]; rewrite Hs, Hp; reflexivity.
  - intros eq E. unfold _orchestrate. rewrite E. reflexivity.
  - intros e E. destruct e; cbn [exn_name]; discriminate.
Qed.

Lemma mode_dispatch_witness :
  lookup_key "decision" deterministic_R3 = Some (PStr "APPROVED")
  /\ (exists r, _orchestrate (model (Member VOTING) true) deterministic_R3 probabilistic_anomaly
                = Ok r)
  /\ _orchestrate (model (Foreign (Some (PStr "consensus")) (fun _ => true)) true)
                  deterministic_R3 probabilistic_anomaly
     = Ok deterministic_R3.
Proof.
  split; [reflexivity |]. split.
  - apply (proj1 (mode_dispatch (model (Member VOTING) true)
                    deterministic_R3 probabilistic_anomaly
                    (PStr "APPROVED") (PStr "rule R3 satisfied") (PStr "anomaly score high")
                    eq_refl eq_refl eq_refl) VOTING).
    reflexivity.
  - apply (proj1 (proj2 (mode_dispatch
                    (model (Foreign (Some (PStr "consensus")) (fun _ => true)) true)
                    deterministic_R3 probabilistic_anomaly
                    (PStr "APPROVED") (PStr "rule R3 satisfied") (PStr "anomaly score high")
                    eq_refl eq_refl eq_refl)) (PStr "consensus") (fun _ => true) eq_refl).
    reflexivity.
Defined.

(** C7. In every fusion mode, for records that carry the keys the fusion
    reads, the decision of the fused record is the decision of the
    deterministic record or the decision of the probabilistic record. *)
Theorem decision_is_an_input_decision (self : AxiomHiveHybridModel.t) (m : ReasoningMode)
    (d p : pydict) (dd dp rd rp : pyval) :
  reasoning_mode self = Member m ->
  lookup_key "decision" d = Some dd ->
  lookup_key "decision" p = Some dp ->
  lookup_key "reasoning" d = Some rd ->
  lookup_key "reasoning" p = Some rp ->
  exists fused : pydict,
    _orchestrate self d p = Ok fused
    /\ (lookup_key "decision" fused = Some dd \/ lookup_key "decision" fused = Some dp).
Proof.
  intros E Hdd Hdp Hrd Hrp. destruct m.
  - exists d. split; [unfold _orchestrate; rewrite E; reflexivity | now left].
  - exists p. split; [unfold _orchestrate; rewrite E; reflexivity | now right].
  - eexists. split.
    + apply orchestrate_fusion with (dec := dd) (rd := rd) (rp := rp);
        try assumption; rewrite E; try reflexivity. eexists; reflexivity.
    + left. reflexivity.
  - eexists. split.
    + apply orchestrate_fusion with (dec := dd) (rd := rd) (rp := rp);
        try assumption; rewrite E; try reflexivity. eexists; reflexivity.
    + left. reflexivity.
Qed.

Lemma decision_is_an_input_decision_witness :
  lookup_key "decision" probabilistic_anomaly = Some (PStr "REJECTED")
  /\ exists fused : pydict,
       _orchestrate (model (Member PROBABILISTIC) true) deterministic_R3 probabilistic_anomaly
       = Ok fused
       /\ (lookup_key "decision" fused = Some (PStr "APPROVED")
           \/ lookup_key "decision" fused = Some (PStr "REJECTED")).
Proof.
  split; [reflexivity |].
  apply (decision_is_an_input_decision (model (Member PROBABILISTIC) true) PROBABILISTIC
           deterministic_R3 probabilistic_anomaly
           (PStr "APPROVED") (PStr "REJECTED")
           (PStr "rule R3 satisfied") (PStr "anomaly score high")); reflexivity.
Defined.

(** C10. Whatever the input and the configuration, the output of [process]
    has [compliance_verified] true and [formal_verification] equal to the
    argument [verify_constraints]; [process] returns such an output for
    every mode object that has a [value], the members of the enumeration
    among them. *)
Theorem process_flags (self : AxiomHiveHybridModel.t) (input_data : pyval)
    (require_explanation verify_constraints : bool) (v : pyval) :
  mode_value (reasoning_mode self) = Ok v ->
  exists out : HybridOutput.t,
    process self input_data require_explanation verify_constraints = Ok out
    /\ HybridOutput.compliance_verified out = true
    /\ HybridOutput.formal_verification out = verify_constraints.
Proof.
  intros Hv. unfold process, _orchestrate. rewrite Hv. cbn [bind].
  destruct (mode_is (reasoning_mode self) SYMBOLIC);
    [| destruct (mode_is (reasoning_mode self) PROBABILISTIC)];
    (eexists; split; [reflexivity | split; reflexivity]).
Qed.

Lemma process_flags_witness :
  mode_value (reasoning_mode (model (Member SYMBOLIC) false)) = Ok (PStr "symbolic")
  /\ exists out : HybridOutput.t,
       process (model (Member SYMBOLIC) false) (PDict [("amount", PInt 100)]) true false = Ok out
       /\ HybridOutput.compliance_verified out = true
       /\ HybridOutput.formal_verification out = false.
Proof.
  split; [reflexivity |].
  apply (process_flags (model (Member SYMBOLIC) false) (PDict [("amount", PInt 100)])
           true false (PStr "symbolic")).
  reflexivity.
Defined.

(* ===================================================================== *)
(** ** Further properties                                                 *)
(* ===================================================================== *)

(** *** Digests are 64 hexadecimal digits *)

Lemma list_ascii_of_string_app (a b : string) :
  list_ascii_of_string (a ++ b) = (list_ascii_of_string a ++ list_ascii_of_string b)%list.
Proof.
  induction a as [|c a IH]; [reflexivity |].
  rewrite append_cons. cbn [list_ascii_of_string app]. now rewrite IH.
Qed.

Lemma hex_text_app (n m : nat) (a b : string) :
  hex_text n a -> hex_text m b -> hex_text (n + m) (a ++ b).
Proof.
  intros [La Ha] [Lb Hb]. split.
  - rewrite length_append. lia.
  - rewrite list_ascii_of_string_app, forallb_app, Ha, Hb. reflexivity.
Qed.

Lemma hex_text_concat (n : nat) (l : list string) :
  Forall (hex_text n) l -> hex_text (length l * n) (String.concat "" l).
Proof.
  induction 1 as [| s l Hs _ IH]; [split; reflexivity |].
  rewrite concat_empty_cons. cbn [length Nat.mul]. now apply hex_text_app.
Qed.

Lemma hex_digit_lower (d : Z) : 0 <= d < 16 -> is_lower_hex (SHA256.hex_digit d) = true.
Proof.
  intros R.
  assert (d = 0 \/ d = 1 \/ d = 2 \/ d = 3 \/ d = 4 \/ d = 5 \/ d = 6 \/ d = 7 \/ d = 8
          \/ d = 9 \/ d = 10 \/ d = 11 \/ d = 12 \/ d = 13 \/ d = 14 \/ d = 15) as C by lia.
  repeat (destruct C as [-> | C]; [reflexivity |]). subst. reflexivity.
Qed.

Lemma hex_byte_text (b : Z) : 0 <= b < 256 -> hex_text 2 (SHA256.hex_byte b).
Proof.
  intros R. unfold SHA256.hex_byte. split; [reflexivity |].
  cbn [list_ascii_of_string forallb].
  rewrite !hex_digit_lower; [reflexivity | |].
  - apply Z.mod_pos_bound. lia.
  - split; [apply Z.div_pos; lia | apply Z.div_lt_upper_bound; lia].
Qed.

Lemma word_hex_text (x : Z) : hex_text 8 (SHA256.word_hex x).
Proof.
  unfold SHA256.word_hex.
  apply (hex_text_concat 2 (map SHA256.hex_byte (SHA256.be_bytes 4 x))).
  apply List.Forall_forall. intros s Hs.
  apply in_map_iff in Hs as (b & <- & Hb). apply hex_byte_text.
  unfold SHA256.be_bytes in Hb. apply in_map_iff in Hb as (i & <- & _).
  apply Z.mod_pos_bound. lia.
Qed.

Lemma hexdigest_text (data : list byte) : hex_text 64 (SHA256.hexdigest data).
Proof.
  unfold SHA256.hexdigest.
  apply (hex_text_concat 8 (map SHA256.word_hex (SHA256.digest_words _))).
  apply List.Forall_forall. intros s Hs.
  apply in_map_iff in Hs as (x & <- & _). apply word_hex_text.
Qed.

(** *** The store outside the log of an engine *)

Lemma step_frame (self : t) (c : call) (h : store) (r : loc) :
  r <> attestation_log self -> snd (step self c h) !! r = h !! r.
Proof.
  intros N. destruct c as [output metadata now | output digest metadata now |];
    cbn [step snd]; try reflexivity.
  unfold generate_attestation. cbn [snd]. unfold list_append.
  apply list_update_other. congruence.
Qed.

Lemma run_cons (self : t) (c : call) (cs : list call) (h : store) :
  run self (c :: cs) h
  = (fst (step self c h) :: fst (run self cs (snd (step self c h))),
     snd (run self cs (snd (step self c h)))).
Proof.
  cbn [run]. destruct (step self c h) as [r h']. cbn [fst snd].
  destruct (run self cs h') as [rs h'']. reflexivity.
Qed.

Lemma run_frame (self : t) (cs : list call) (h : store) (r : loc) :
  r <> attestation_log self -> snd (run self cs h) !! r = h !! r.
Proof.
  intros N. revert h. induction cs as [|c cs IH]; intros h; [reflexivity |].
  rewrite run_cons. cbn [snd]. rewrite IH. now apply step_frame.
Qed.

Lemma step_log (self : t) (c : call) (h : store) (trail : list pyval) :
  h !! attestation_log self = Some trail ->
  exists appended : list pyval,
    snd (step self c h) !! attestation_log self = Some (trail ++ appended)%list
    /\ length appended = length (generate_calls [c]).
Proof.
  intros Hlog. destruct c as [output metadata now | output digest metadata now |].
  - eexists [_]. split; [| reflexivity].
    cbn [step]. unfold generate_attestation. cbn [snd]. unfold list_append.
    exact (list_update_lookup (fun l => l ++ [_])%list _ _ trail Hlog).
  - exists []. rewrite app_nil_r. split; [exact Hlog | reflexivity].
  - exists []. rewrite app_nil_r. split; [exact Hlog | reflexivity].
Qed.

Lemma run_log_length (self : t) (cs : list call) (h : store) (trail : list pyval) :
  h !! attestation_log self = Some trail ->
  exists appended : list pyval,
    snd (run self cs h) !! attestation_log self = Some (trail ++ appended)%list
    /\ length appended = length (generate_calls cs).
Proof.
  revert h trail. induction cs as [|c cs IH]; intros h trail Hlog.
  - exists []. rewrite app_nil_r. split; [exact Hlog | reflexivity].
  - rewrite run_cons. cbn [snd].
    destruct (step_log self c h trail Hlog) as (a1 & H1 & L1).
    destruct (IH _ _ H1) as (a2 & H2 & L2).
    exists (a1 ++ a2)%list. rewrite app_assoc. split; [exact H2 |].
    rewrite length_app, L1, L2.
    destruct c; reflexivity.
Qed.

Lemma init_keeps (strategy : string) (h : store) (r : loc) (l : list pyval) :
  h !! r = Some l -> snd (__init__ strategy h) !! r = Some l.
Proof.
  intros E. unfold __init__. cbn [snd]. rewrite lookup_insert_ne; [exact E |].
  intros <-. pose proof (is_fresh (dom h)) as F.
  apply F. apply elem_of_dom. now exists l.
Qed.

(** X1. Two engines never share a log: an engine created after another
    one gets a list of its own, and whatever is called on the first engine,
    the log of the second stays empty while the first grows by one entry per
    [generate_attestation] call. *)
Theorem engines_have_separate_logs (strategy1 strategy2 : string) (h : store)
    (cs : list call) :
  let e1 := fst (__init__ strategy1 h) in
  let e2 := fst (__init__ strategy2 (snd (__init__ strategy1 h))) in
  let h2 := snd (__init__ strategy2 (snd (__init__ strategy1 h))) in
  attestation_log e1 <> attestation_log e2
  /\ snd (run e1 cs h2) !! get_audit_trail e2 = Some []
  /\ exists trail : list pyval,
       snd (run e1 cs h2) !! get_audit_trail e1 = Some trail
       /\ length trail = length (generate_calls cs).
Proof.
  intros e1 e2 h2.
  assert (attestation_log e1 <> attestation_log e2) as N.
  { intros E. pose proof (init_fresh strategy2 (snd (__init__ strategy1 h))) as F.
    fold e2 in F. rewrite <- E in F. unfold e1 in F. rewrite init_log in F. discriminate F. }
  split; [exact N |]. split.
  - unfold get_audit_trail. rewrite run_frame by congruence. apply init_log.
  - assert (h2 !! attestation_log e1 = Some []) as H1.
    { apply init_keeps. apply init_log. }
    destruct (run_log_length e1 cs h2 [] H1) as (appended & Hl & Hn).
    exists appended. split; [exact Hl | exact Hn].
Qed.

(** X2. The calls on an engine change no list of the store but its own
    log. *)
Theorem run_changes_only_the_log (self : t) (cs : list call) (h : store) (r : loc) :
  r <> attestation_log self -> snd (run self cs h) !! r = h !! r.
Proof. apply run_frame. Qed.

Lemma run_changes_only_the_log_witness :
  (2%positive : loc) <> attestation_log engine0
  /\ snd (run engine0 three_calls (<[2%positive := [PInt 7]]> store0)) !! (2%positive : loc)
     = Some [PInt 7].
Proof.
  assert ((2%positive : loc) <> attestation_log engine0) as N by (vm_compute; discriminate).
  split; [exact N |].
  rewrite (run_changes_only_the_log engine0 three_calls _ 2%positive N).
  apply lookup_insert_eq.
Defined.

(** X3. Verification and reading leave no trace: a sequence of calls
    without [generate_attestation] leaves the whole store as it was, so a
    verification, passed or failed, is not recorded in the log. *)
Theorem only_generate_writes (self : t) (cs : list call) (h : store) :
  generate_calls cs = [] -> snd (run self cs h) = h.
Proof.
  revert h. induction cs as [|c cs IH]; intros h E; [reflexivity |].
  rewrite run_cons. cbn [snd].
  destruct c as [output metadata now | output digest metadata now |];
    [discriminate E | |]; cbn [step snd]; apply IH; exact E.
Qed.

Lemma only_generate_writes_witness :
  generate_calls [Verify payload_ab "00" None new_year; GetAuditTrail] = []
  /\ snd (run engine0 [Verify payload_ab "00" None new_year; GetAuditTrail] store1) = store1.
Proof.
  split; [reflexivity |].
  apply (only_generate_writes engine0 [Verify payload_ab "00" None new_year; GetAuditTrail] store1).
  reflexivity.
Defined.

(** *** What the digest covers *)

(** X4. [metadata or {}]: leaving the metadata out and passing an empty
    mapping are the same call. The digest, the log entry and every later
    verification are the same, so a digest generated without metadata
    verifies against an empty mapping at the same instant. *)
Theorem no_metadata_is_empty_metadata (self : t) (output : pydict) (now : datetime.t)
    (h : store) (digest : string) :
  generate_attestation self output None now h
  = generate_attestation self output (Some []) now h
  /\ verify_attestation self output digest None now
     = verify_attestation self output digest (Some []) now
  /\ verify_attestation self output
       (fst (generate_attestation self output None now h)) (Some []) now = true.
Proof.
  repeat split. rewrite verify_attestation_digest, generate_attestation_digest.
  apply String.eqb_refl.
Qed.

(** X5. The digest is a function of the payload, the metadata and the
    timestamp alone: the strategy of the engine and the contents of its log
    have no part in it. Any engine therefore accepts, at the same instant,
    the digest any other engine generated, also one with an empty log. *)
Theorem digest_ignores_the_engine (self self' : t) (output : pydict)
    (metadata : option pydict) (now : datetime.t) (h h' : store) :
  fst (generate_attestation self output metadata now h)
  = fst (generate_attestation self' output metadata now h')
  /\ verify_attestation self' output
       (fst (generate_attestation self output metadata now h)) metadata now = true.
Proof.
  split; [reflexivity |].
  rewrite verify_attestation_digest, generate_attestation_digest. apply String.eqb_refl.
Qed.

Example digest_of_another_strategy :
  fst (generate_attestation {| strategy := "blockchain"; attestation_log := 5%positive |}
         [("decision", PStr "APPROVED")] None new_year ∅)
  = "dd123d28ff94826e411a9fcb4483b775e28ad9b0722c16f9cb62687b3d89004f".
Proof. vm_compute. reflexivity. Qed.

(** X6. Every digest the two modules produce is a text of 64 lower-case
    hexadecimal digits, whatever was hashed. *)
Theorem digests_are_64_hex_digits (self : t) (output : pydict) (metadata : option pydict)
    (now : datetime.t) (h : store) (hybrid : AxiomHiveHybridModel.t) (fused : pydict) :
  hex_text 64 (fst (generate_attestation self output metadata now h))
  /\ hex_text 64 (_generate_attestation hybrid fused).
Proof. split; apply hexdigest_text. Qed.

(** X7. The log keeps what is needed to recompute a digest from its
    payload: the entry a [generate_attestation] call appends holds the
    digest the call returned and the very timestamp text that was hashed, so
    hashing the payload and metadata again with the logged timestamp gives
    the logged hash. *)
Theorem log_entry_reproduces_its_hash (self : t) (output : pydict)
    (metadata : option pydict) (now : datetime.t) (h : store) (trail : list pyval) :
  h !! attestation_log self = Some trail ->
  exists entry_hash entry_timestamp : string,
    snd (generate_attestation self output metadata now h) !! get_audit_trail self
    = Some (trail ++ [PDict [ ("hash", PStr entry_hash);
                              ("timestamp", PStr entry_timestamp);
                              ("strategy", PStr (strategy self)) ]])%list
    /\ entry_hash = fst (generate_attestation self output metadata now h)
    /\ sha256_hex (dumps (PDict [ ("output", PDict output);
                                  ("metadata", PDict (or_empty metadata));
                                  ("timestamp", PStr entry_timestamp) ]))
       = entry_hash.
Proof.
  intros Hlog. eexists _, (datetime.isoformat now). split; [| split; reflexivity].
  unfold generate_attestation. cbn [snd]. unfold list_append, get_audit_trail.
  exact (list_update_lookup (fun l => l ++ [_])%list _ _ trail Hlog).
Qed.

Lemma log_entry_reproduces_its_hash_witness :
  store0 !! attestation_log engine0 = Some []
  /\ exists entry_hash entry_timestamp : string,
       store1 !! get_audit_trail engine0
       = Some [PDict [ ("hash", PStr entry_hash);
                       ("timestamp", PStr entry_timestamp);
                       ("strategy", PStr "sha256") ]]
       /\ sha256_hex (dumps (PDict [ ("output", PDict [("decision", PStr "APPROVED")]);
                                     ("metadata", PDict []);
                                     ("timestamp", PStr entry_timestamp) ]))
          = entry_hash.
Proof.
  split; [apply init_log |].
  destruct (log_entry_reproduces_its_hash engine0 [("decision", PStr "APPROVED")] None
              new_year store0 [] (init_log "sha256" ∅))
    as (entry_hash & entry_timestamp & Hl & _ & Hh).
  exists entry_hash, entry_timestamp. split; [exact Hl | exact Hh].
Defined.

(** *** Objects and their texts *)

Lemma dumps_stringified (v : pyval) : dumps (stringified v) = dumps v.
Proof.
  induction v as [| b | n | x | s | xs IH | items IH | s r] using pyval_ind;
    try reflexivity.
  - assert (map dumps (map stringified xs) = map dumps xs) as E.
    { induction IH as [| v xs Hv _ IHxs]; [reflexivity |].
      cbn [map]. now rewrite Hv, IHxs. }
    cbn [stringified dumps]. now rewrite E.
  - assert (map (fun kv => (fst kv, dumps (snd kv)))
                (map (fun kv => (fst kv, stringified (snd kv))) items)
            = map (fun kv => (fst kv, dumps (snd kv))) items) as E.
    { induction IH as [| kv items Hkv _ IHitems]; [reflexivity |].
      cbn [map fst snd]. now rewrite Hkv, IHitems. }
    cbn [stringified]. now rewrite !dumps_dict, E.
Qed.

(** X8. [default=str] makes an object and the text of its [str()] the same
    to both attestations: replacing, at any depth, the objects of a payload
    by their texts changes neither the canonical text nor the digest, so a
    payload and its stringified form, which are different payloads, verify
    against the same hash. *)
Theorem attestation_conflates_objects_with_their_text (self : t) (output : pydict)
    (metadata : option pydict) (now : datetime.t) (h : store)
    (hybrid : AxiomHiveHybridModel.t) :
  fst (generate_attestation self (stringified_items output) metadata now h)
  = fst (generate_attestation self output metadata now h)
  /\ verify_attestation self (stringified_items output)
       (fst (generate_attestation self output metadata now h)) metadata now = true
  /\ _generate_attestation hybrid (stringified_items output)
     = _generate_attestation hybrid output.
Proof.
  assert (dumps (PDict (stringified_items output)) = dumps (PDict output)) as E
    by apply (dumps_stringified (PDict output)).
  assert (attestation_str (stringified_items output) metadata now
          = attestation_str output metadata now) as Ea.
  { rewrite !attestation_str_shape. unfold attestation_prefix. now rewrite E. }
  repeat split.
  - rewrite !generate_attestation_digest. now rewrite Ea.
  - rewrite verify_attestation_digest, generate_attestation_digest, Ea.
    apply String.eqb_refl.
  - unfold _generate_attestation. now rewrite E.
Qed.

Example decimal_and_its_text :
  stringified_items payload_decimal = payload_text
  /\ payload_decimal <> payload_text
  /\ verify_attestation engine0 payload_text
       (fst (generate_attestation engine0 payload_decimal None new_year store0))
       None new_year = true.
Proof.
  split; [reflexivity |]. split; [discriminate |]. vm_compute. reflexivity.
Qed.

(* ===================================================================== *)
(** ** Further properties of the hybrid model                             *)
(* ===================================================================== *)

(** X9. HYBRID and VOTING are one and the same fusion: on every pair of
    records, also those that make it raise, the two modes give the same
    result, and [process] gives the same output under both. *)
Theorem hybrid_and_voting_agree (self self' : AxiomHiveHybridModel.t) (d p : pydict) :
  reasoning_mode self = Member HYBRID ->
  reasoning_mode self' = Member VOTING ->
  _orchestrate self d p = _orchestrate self' d p
  /\ (attestation_enabled self = attestation_enabled self' ->
      forall input_data require_explanation verify_constraints,
        process self input_data require_explanation verify_constraints
        = process self' input_data require_explanation verify_constraints).
Proof.
  intros E E'.
  assert (forall d p, _orchestrate self d p = _orchestrate self' d p) as Ho.
  { intros d0 p0. unfold _orchestrate. rewrite E, E'. reflexivity. }
  split; [apply Ho |].
  intros Ea input_data re vc. unfold process, _generate_attestation.
  rewrite Ea. unfold _symbolic_reasoning, _probabilistic_inference. rewrite Ho. reflexivity.
Qed.

Lemma hybrid_and_voting_agree_witness :
  reasoning_mode (model (Member HYBRID) true) = Member HYBRID
  /\ _orchestrate (model (Member HYBRID) true) deterministic_R3 []
     = _orchestrate (model (Member VOTING) false) deterministic_R3 [].
Proof.
  split; [reflexivity |].
  apply (hybrid_and_voting_agree (model (Member HYBRID) true) (model (Member VOTING) false)
           deterministic_R3 []); reflexivity.
Defined.

(** X10. Under HYBRID and VOTING the fused record depends on four entries
    only: the decision and the reasoning of the deterministic record, the
    confidence and the reasoning of the probabilistic one. Everything else,
    the [verified] flag and the probabilistic decision among it, has no
    effect on the result, nor has the order of the keys. *)
Theorem fusion_reads_four_entries (self : AxiomHiveHybridModel.t) (d d' p p' : pydict) :
  reasoning_mode self = Member HYBRID \/ reasoning_mode self = Member VOTING ->
  lookup_key "decision" d = lookup_key "decision" d' ->
  lookup_key "reasoning" d = lookup_key "reasoning" d' ->
  lookup_key "confidence" p = lookup_key "confidence" p' ->
  lookup_key "reasoning" p = lookup_key "reasoning" p' ->
  _orchestrate self d p = _orchestrate self d' p'.
Proof.
  intros Hm Hd Hr Hc Hp. unfold _orchestrate, getitem, get.
  rewrite Hd, Hr, Hc, Hp. destruct Hm as [-> | ->]; reflexivity.
Qed.

Lemma fusion_reads_four_entries_witness :
  lookup_key "decision" deterministic_R3 = lookup_key "decision" deterministic_unverified
  /\ _orchestrate (model (Member HYBRID) true) deterministic_R3 probabilistic_anomaly
     = _orchestrate (model (Member HYBRID) true) deterministic_unverified
                    probabilistic_approving.
Proof.
  split; [reflexivity |].
  apply (fusion_reads_four_entries (model (Member HYBRID) true)
           deterministic_R3 deterministic_unverified
           probabilistic_anomaly probabilistic_approving);
    [left |..]; reflexivity.
Defined.

(** X11. When the fusion raises. SYMBOLIC and PROBABILISTIC never look
    into the records and return for any two of them, empty ones too. HYBRID
    and VOTING raise exactly when the deterministic record lacks [decision]
    or [reasoning] or the probabilistic record lacks [reasoning]; the error
    is a [KeyError] for the first key missing in that order, and a missing
    [confidence] is no error. *)
Theorem fusion_errors (self : AxiomHiveHybridModel.t) (m : ReasoningMode) (d p : pydict) :
  reasoning_mode self = Member m ->
  (m = SYMBOLIC \/ m = PROBABILISTIC -> exists r, _orchestrate self d p = Ok r)
  /\ (m = HYBRID \/ m = VOTING ->
      (lookup_key "decision" d = None ->
       _orchestrate self d p = Raise (KeyError "decision"))
      /\ (lookup_key "decision" d <> None ->
          lookup_key "reasoning" d = None \/ lookup_key "reasoning" p = None ->
          _orchestrate self d p = Raise (KeyError "reasoning"))
      /\ ((exists e, _orchestrate self d p = Raise e)
          <-> lookup_key "decision" d = None \/ lookup_key "reasoning" d = None
              \/ lookup_key "reasoning" p = None)).
Proof.
  intros E. split.
  - intros [-> | ->]; unfold _orchestrate; rewrite E; eexists; reflexivity.
  - intros Hm.
    assert (_orchestrate self d p
            = do decision <- getitem d "decision";
              do symbolic_reasoning <- getitem d "reasoning";
              do probabilistic_reasoning <- getitem p "reasoning";
              Ok [ ("decision", decision);
                   ("confidence", get p "confidence" (PFloat 0.5));
                   ("reasoning", PStr ("Symbolic: " ++ py_str symbolic_reasoning
                                       ++ "; Probabilistic: " ++ py_str probabilistic_reasoning));
                   ("symbolic_weight", PFloat 0.6);
                   ("probabilistic_weight", PFloat 0.4) ]) as ->.
    { unfold _orchestrate. rewrite E. destruct Hm as [-> | ->]; reflexivity. }
    unfold getitem.
    destruct (lookup_key "decision" d) as [dec |];
      destruct (lookup_key "reasoning" d) as [rd |];
      destruct (lookup_key "reasoning" p) as [rp |]; cbn [bind];
      (split; [intros H; (discriminate H || reflexivity) |]);
      (split; [intros Hn Hor; try (exfalso; now apply Hn);
               destruct Hor as [H | H]; (discriminate H || reflexivity) |]);
      (split; [intros [e He]; (discriminate He || auto) | intros H; eauto]).
    destruct H as [H | [H | H]]; discriminate H.
Qed.

Lemma fusion_errors_witness :
  reasoning_mode (model (Member VOTING) true) = Member VOTING
  /\ _orchestrate (model (Member VOTING) true) [("reasoning", PStr "no decision")] []
     = Raise (KeyError "decision").
Proof.
  split; [reflexivity |].
  apply (fusion_errors (model (Member VOTING) true) VOTING
           [("reasoning", PStr "no decision")] [] eq_refl);
    [right |]; reflexivity.
Defined.

(** X12. The constructor asks one thing of the mode object, its [value],
    which a log line reads. On an object without that attribute, and on no
    other, it raises [AttributeError] and builds no model. On every other
    mode object, a member or not and whatever it answers to [==], it returns
    the model that holds the five arguments as they were given and [None]
    for the three engines, and [get_audit_trail] on that model returns the
    report of six entries with the value of the mode, the attestation
    switch and the compliance mode of the call. The value is one of the
    Python values above, all of which the log line can print. *)
Theorem constructor_needs_only_the_value (axioms weights : option string) (mode : mode_object)
    (attestation : bool) (compliance : string) :
  ((exists eq, mode = Foreign None eq)
   <-> AxiomHiveHybridModel.__init__ axioms weights mode attestation compliance
       = Raise (AttributeError "value"))
  /\ ((forall eq, mode <> Foreign None eq)
      <-> AxiomHiveHybridModel.__init__ axioms weights mode attestation compliance
          = Ok {| symbolic_axioms_path := axioms; probabilistic_model_path := weights;
                  reasoning_mode := mode; attestation_enabled := attestation;
                  compliance_mode := compliance; symbolic_engine := PNone;
                  probabilistic_engine := PNone; orchestrator := PNone |})
  /\ (forall self,
      AxiomHiveHybridModel.__init__ axioms weights mode attestation compliance = Ok self ->
      exists v, mode_value mode = Ok v
        /\ AxiomHiveHybridModel.get_audit_trail self
           = Ok [ ("version", PStr "1.0.0");
                  ("reasoning_mode", v);
                  ("attestation_enabled", PBool attestation);
                  ("compliance_mode", PStr compliance);
                  ("author", PStr "Alexis Adams");
                  ("company", PStr "AxiomHive") ]).
Proof.
  unfold AxiomHiveHybridModel.__init__.
  destruct mode as [m | [w |] eq]; cbn [mode_value bind]; (split; [| split]).
  - split; [intros [eq E]; discriminate E | intros E; discriminate E].
  - split; [reflexivity | intros _ eq E; discriminate E].
  - intros self E. injection E as <-. eexists. split; reflexivity.
  - split; [intros [eq' E]; discriminate E | intros E; discriminate E].
  - split; [reflexivity | intros _ eq' E; discriminate E].
  - intros self E. injection E as <-. eexists. split; reflexivity.
  - split; [reflexivity | intros _; exists eq; reflexivity].
  - split; [intros H; exfalso; exact (H eq eq_refl) | intros E; discriminate E].
  - intros self E. discriminate E.
Qed.

Lemma constructor_needs_only_the_value_witness :
  AxiomHiveHybridModel.__init__ None (Some "weights.bin") (Foreign None default_eq) true "SOC2"
  = Raise (AttributeError "value")
  /\ exists self,
       AxiomHiveHybridModel.__init__ (Some "axioms.yaml") None
         (Foreign (Some (PInt 7)) default_eq) false "EU_AI_ACT" = Ok self
       /\ lookup_key "reasoning_mode" (match AxiomHiveHybridModel.get_audit_trail self with
                                       | Ok trail => trail
                                       | Raise _ => []
                                       end) = Some (PInt 7).
Proof.
  split.
  - apply (proj1 (constructor_needs_only_the_value None (Some "weights.bin")
                    (Foreign None default_eq) true "SOC2")).
    exists default_eq. reflexivity.
  - eexists. split.
    + apply (proj1 (proj2 (constructor_needs_only_the_value (Some "axioms.yaml") None
                             (Foreign (Some (PInt 7)) default_eq) false "EU_AI_ACT"))).
      intros eq E. discriminate E.
    + reflexivity.
Defined.

(** X13. The result of [process] does not depend on its input: two
    different inputs get the same output and the same attestation hash. The
    two flags do not reach the hash either: it is taken over the fused
    record, so it is the same with and without the explanation, which the
    output then leaves out. *)
Theorem process_ignores_its_input (self : AxiomHiveHybridModel.t) (x y : pyval)
    (re re' vc vc' : bool) :
  process self x re vc = process self y re vc
  /\ match process self x re vc, process self y re' vc' with
     | Ok out, Ok out' =>
         HybridOutput.attestation_hash out = HybridOutput.attestation_hash out'
         /\ HybridOutput.output out = HybridOutput.output out'
         /\ HybridOutput.confidence_score out = HybridOutput.confidence_score out'
         /\ (re = false -> HybridOutput.reasoning_path out = PStr "")
     | Raise e, Raise e' => e = e'
     | _, _ => False
     end.
Proof.
  split; [reflexivity |]. unfold process.
  change (_symbolic_reasoning self y vc') with (_symbolic_reasoning self x vc).
  change (_probabilistic_inference self y) with (_probabilistic_inference self x).
  destruct (_orchestrate self (_symbolic_reasoning self x vc) (_probabilistic_inference self x))
    as [fused | e]; cbn [bind]; [| reflexivity].
  destruct (getitem fused "decision") as [decision | e]; cbn [bind]; [| reflexivity].
  cbn [HybridOutput.attestation_hash HybridOutput.output HybridOutput.confidence_score
       HybridOutput.reasoning_path].
  repeat split. intros ->. reflexivity.
Qed.

(** X14. [verify_output] looks at three fields of the output and at
    nothing else: the flags [formal_verification] and [compliance_verified],
    the two contributions and the stored hash can be changed at will, and
    the model that verifies exchanged for another, without changing its
    answer. *)
Theorem verify_output_reads_three_fields (self self' : AxiomHiveHybridModel.t)
    (out out' : HybridOutput.t) (attestation_hash : string) :
  HybridOutput.output out = HybridOutput.output out' ->
  HybridOutput.reasoning_path out = HybridOutput.reasoning_path out' ->
  HybridOutput.confidence_score out = HybridOutput.confidence_score out' ->
  verify_output self out attestation_hash = verify_output self' out' attestation_hash.
Proof.
  intros Ho Hr Hc. unfold verify_output. now rewrite Ho, Hr, Hc.
Qed.

Lemma verify_output_reads_three_fields_witness :
  HybridOutput.output approved_output = HybridOutput.output (tampered approved_output)
  /\ verify_output (model (Member HYBRID) true) approved_output
       "3fe0ee6048b26987e4b6ac86ddf5e456fc579e656bc34e2de81887a3cdac448f"
     = verify_output (model (Member SYMBOLIC) false) (tampered approved_output)
         "3fe0ee6048b26987e4b6ac86ddf5e456fc579e656bc34e2de81887a3cdac448f".
Proof.
  split; [reflexivity |].
  apply (verify_output_reads_three_fields (model (Member HYBRID) true)
           (model (Member SYMBOLIC) false) approved_output (tampered approved_output));
    reflexivity.
Defined.

Example tampered_output_still_verifies :
  process (model (Member HYBRID) true) (PStr "loan application 17") true true
  = Ok approved_output
  /\ verify_output (model (Member HYBRID) true) (tampered approved_output)
       "3fe0ee6048b26987e4b6ac86ddf5e456fc579e656bc34e2de81887a3cdac448f" = true.
Proof. vm_compute. split; reflexivity. Qed.

(** *** Which hash [verify_output] accepts *)

Lemma dumps_dict_perm (items items' : pydict) :
  Permutation items items' -> NoDup (map fst items) ->
  dumps (PDict items) = dumps (PDict items').
Proof.
  intros Hp D. rewrite !dumps_dict. do 4 f_equal.
  apply sorted_items_perm; [now apply Permutation_map |].
  now rewrite map_fst_rendered.
Qed.

(** X15. The hash [verify_output] accepts is the one [_generate_attestation]
    gives on the dictionary of the three fields [output], [reasoning_path]
    and [confidence_score], in whatever order its keys were inserted: the two
    methods fit together on that dictionary, not on the fused record. *)
Theorem verify_output_accepts_the_three_field_hash (self self' : AxiomHiveHybridModel.t)
    (out : HybridOutput.t) (d : pydict) :
  Permutation (verified_items out) d ->
  verify_output self out (_generate_attestation self' d) = true.
Proof.
  intros Hp. unfold verify_output, _generate_attestation.
  change [ ("output", HybridOutput.output out);
           ("reasoning_path", HybridOutput.reasoning_path out);
           ("confidence_score", HybridOutput.confidence_score out) ]
    with (verified_items out).
  rewrite (dumps_dict_perm _ _ Hp); [apply String.eqb_refl |].
  apply distinct_NoDup. reflexivity.
Qed.

Lemma verify_output_accepts_the_three_field_hash_witness :
  Permutation (verified_items approved_output)
    [ ("confidence_score", PFloat 0.96);
      ("output", PStr "APPROVED");
      ("reasoning_path", HybridOutput.reasoning_path approved_output) ]
  /\ verify_output (model (Member HYBRID) true) approved_output
       (_generate_attestation (model (Member HYBRID) true)
          [ ("confidence_score", PFloat 0.96);
            ("output", PStr "APPROVED");
            ("reasoning_path", HybridOutput.reasoning_path approved_output) ]) = true.
Proof.
  assert (Permutation (verified_items approved_output)
            [ ("confidence_score", PFloat 0.96);
              ("output", PStr "APPROVED");
              ("reasoning_path", HybridOutput.reasoning_path approved_output) ]) as Hp.
  { unfold verified_items.
    eapply perm_trans; [apply perm_skip, perm_swap |]. apply perm_swap. }
  split; [exact Hp |].
  apply (verify_output_accepts_the_three_field_hash (model (Member HYBRID) true)
           (model (Member HYBRID) true) approved_output _ Hp).
Defined.

(** X16. [_generate_attestation] does not see the insertion order of the
    keys either: two fused records that are equal up to the order of their
    keys, at any depth, get the same hash, under any model. *)
Theorem generate_attestation_ignores_key_order (self self' : AxiomHiveHybridModel.t)
    (output output' : pydict) :
  well_formed (PDict output) = true ->
  same_value (PDict output) (PDict output') ->
  _generate_attestation self output = _generate_attestation self' output'.
Proof.
  intros W S. unfold _generate_attestation. now rewrite (dumps_same _ _ W S).
Qed.

Lemma generate_attestation_ignores_key_order_witness :
  well_formed (PDict payload_ab) = true
  /\ same_value (PDict payload_ab) (PDict payload_ba)
  /\ _generate_attestation (model (Member HYBRID) true) payload_ab
     = _generate_attestation (model (Member SYMBOLIC) false) payload_ba.
Proof.
  split; [reflexivity |]. split; [exact payload_ab_same_ba |].
  apply (generate_attestation_ignores_key_order (model (Member HYBRID) true)
           (model (Member SYMBOLIC) false) payload_ab payload_ba eq_refl payload_ab_same_ba).
Defined.

(** *** The audit trail of the model *)

Lemma ReasoningMode_value_inj (m m' : ReasoningMode) :
  ReasoningMode_value m = ReasoningMode_value m' -> m = m'.
Proof. destruct m, m'; intros E; (reflexivity || discriminate E). Qed.

(** X17. The audit trail of the model is a report of three settings: two
    models with enumerated modes have the same trail exactly when they have
    the same mode, the same attestation switch and the same compliance mode.
    The two paths are not in it, and nothing that [process] did is. *)
Theorem audit_trail_reports_three_settings (self self' : AxiomHiveHybridModel.t)
    (m m' : ReasoningMode) :
  reasoning_mode self = Member m ->
  reasoning_mode self' = Member m' ->
  AxiomHiveHybridModel.get_audit_trail self = AxiomHiveHybridModel.get_audit_trail self'
  <-> m = m'
      /\ attestation_enabled self = attestation_enabled self'
      /\ compliance_mode self = compliance_mode self'.
Proof.
  intros E E'. unfold AxiomHiveHybridModel.get_audit_trail. rewrite E, E'.
  cbn [mode_value bind]. split.
  - intros H.
    assert (forall k, lookup_key k
              [ ("version", PStr __version__); ("reasoning_mode", PStr (ReasoningMode_value m));
                ("attestation_enabled", PBool (attestation_enabled self));
                ("compliance_mode", PStr (compliance_mode self));
                ("author", PStr __author__); ("company", PStr __company__) ]
            = lookup_key k
              [ ("version", PStr __version__); ("reasoning_mode", PStr (ReasoningMode_value m'));
                ("attestation_enabled", PBool (attestation_enabled self'));
                ("compliance_mode", PStr (compliance_mode self'));
                ("author", PStr __author__); ("company", PStr __company__) ]) as L.
    { intros k. congruence. }
    pose proof (L "reasoning_mode") as L1. pose proof (L "attestation_enabled") as L2.
    pose proof (L "compliance_mode") as L3. cbn in L1, L2, L3.
    repeat split.
    + apply ReasoningMode_value_inj. congruence.
    + congruence.
    + congruence.
  - intros (-> & -> & ->). reflexivity.
Qed.

Lemma audit_trail_reports_three_settings_witness :
  reasoning_mode (model (Member HYBRID) true) = Member HYBRID
  /\ (AxiomHiveHybridModel.get_audit_trail (model (Member HYBRID) true)
      = AxiomHiveHybridModel.get_audit_trail
          {| symbolic_axioms_path := Some "axioms.yaml";
             probabilistic_model_path := Some "weights.bin";
             reasoning_mode := Member HYBRID; attestation_enabled := true;
             compliance_mode := "ISO42001"; symbolic_engine := PNone;
             probabilistic_engine := PNone; orchestrator := PNone |}).
Proof.
  split; [reflexivity |].
  apply (audit_trail_reports_three_settings (model (Member HYBRID) true)
           {| symbolic_axioms_path := Some "axioms.yaml";
              probabilistic_model_path := Some "weights.bin";
              reasoning_mode := Member HYBRID; attestation_enabled := true;
              compliance_mode := "ISO42001"; symbolic_engine := PNone;
              probabilistic_engine := PNone; orchestrator := PNone |}
           HYBRID HYBRID eq_refl eq_refl).
  repeat split.
Defined.

(** *** Why [verify_output] rejects the hash of a fused record *)

Lemma escape_char_not_dquote (c : ascii) (rest r : string) :
  escape_char c ++ rest <> String dquote r.
Proof.
  destruct c as [[] [] [] [] [] [] [] []]; intros E; cbv in E; discriminate E.
Qed.

(** An encoded string is never the beginning of another one. *)
Lemma escaped_prefix_free (s s' r r' : string) :
  concat_map escape_char s ++ String dquote r
  = concat_map escape_char s' ++ String dquote r' -> s = s'.
Proof.
  revert s'. induction s as [|c s IH]; intros [|c' s'] E.
  - reflexivity.
  - rewrite concat_map_cons, append_assoc in E.
    symmetry in E. change (concat_map escape_char "" ++ String dquote r)
                     with (String dquote r) in E.
    now apply escape_char_not_dquote in E.
  - rewrite concat_map_cons, append_assoc in E.
    change (concat_map escape_char "" ++ String dquote r') with (String dquote r') in E.
    now apply escape_char_not_dquote in E.
  - rewrite !concat_map_cons, !append_assoc in E.
    apply (f_equal unescape_head) in E. rewrite !unescape_escape in E.
    injection E as -> E. f_equal. now apply IH.
Qed.

Lemma encode_basestring_ascii_prefix_free (s s' r r' : string) :
  encode_basestring_ascii s ++ r = encode_basestring_ascii s' ++ r' -> s = s'.
Proof.
  unfold encode_basestring_ascii. rewrite !append_cons, !append_assoc.
  intros E. injection E as E. unfold chr in E. rewrite !append_cons in E.
  now apply escaped_prefix_free in E.
Qed.

Lemma insert_item_in {A : Type} (x y : string * A) (l : list (string * A)) :
  In y (insert_item x l) -> y = x \/ In y l.
Proof.
  induction l as [|z l IH]; cbn [insert_item].
  - intros [<- | []]. now left.
  - destruct (String.ltb (fst z) (fst x)).
    + intros [<- | H]; [right; now left |]. destruct (IH H) as [-> | H']; [now left |].
      right. now right.
    + intros [<- | H]; [now left | now right].
Qed.

Lemma sorted_items_in {A : Type} (y : string * A) (l : list (string * A)) :
  In y (sorted_items l) -> In y l.
Proof.
  induction l as [|x l IH]; cbn [sorted_items]; [tauto |].
  intros H. apply insert_item_in in H as [-> | H]; [now left | right; auto].
Qed.

Lemma lookup_key_none (key : string) (d : pydict) (v : pyval) :
  lookup_key key d = None -> ~ In (key, v) d.
Proof.
  induction d as [|[k w] d IH]; cbn [lookup_key]; [tauto |].
  destruct (String.eqb_spec k key) as [-> | N]; [discriminate |].
  intros H [E | Hin]; [congruence | now apply IH].
Qed.

Lemma concat_head (sep x : string) (l : list string) :
  exists r, String.concat sep (x :: l) = x ++ r.
Proof.
  destruct l as [|y l]; [exists ""; symmetry; apply append_nil_r |].
  eexists. reflexivity.
Qed.

Lemma dumps_verified_items (out : HybridOutput.t) :
  exists r, dumps (PDict (verified_items out))
            = "{" ++ encode_basestring_ascii "confidence_score" ++ r.
Proof.
  rewrite dumps_dict. unfold verified_items. cbn [map fst snd].
  generalize (dumps (HybridOutput.output out)) (dumps (HybridOutput.reasoning_path out))
             (dumps (HybridOutput.confidence_score out)).
  intros a b c.
  change (sorted_items [("output", a); ("reasoning_path", b); ("confidence_score", c)])
    with [("confidence_score", c); ("output", a); ("reasoning_path", b)].
  cbn [map]. destruct (concat_head ", " (render_item ("confidence_score", c))
                         [render_item ("output", a); render_item ("reasoning_path", b)])
    as [r ->].
  unfold render_item at 1. cbn [fst snd]. rewrite !append_assoc. eexists. reflexivity.
Qed.

Lemma dumps_without_confidence_score (fused : pydict) (out : HybridOutput.t) :
  lookup_key "confidence_score" fused = None ->
  dumps (PDict fused) <> dumps (PDict (verified_items out)).
Proof.
  intros Hnone E. destruct (dumps_verified_items out) as [r Hr]. rewrite Hr in E.
  rewrite dumps_dict_sorted_first in E. apply append_inv_head in E.
  destruct (sorted_items fused) as [|[k v] rest] eqn:Hs.
  - cbv in E. discriminate E.
  - cbn [map] in E.
    destruct (concat_head ", " (encode_basestring_ascii k ++ ": " ++ dumps v)
                (map (fun kv => encode_basestring_ascii (fst kv) ++ ": " ++ dumps (snd kv)) rest))
      as [r' Hr'].
    cbn [fst snd] in E. rewrite Hr', !append_assoc in E.
    apply encode_basestring_ascii_prefix_free in E. subst k.
    apply (lookup_key_none _ _ v Hnone). apply sorted_items_in. rewrite Hs. now left.
Qed.

(** X18. [verify_output] cannot accept the hash [_generate_attestation]
    made of a dictionary that has no key [confidence_score], whatever the
    records and the output are: the two canonical texts differ, so the answer
    is [false] unless SHA-256 maps the two texts to one digest. *)
Theorem verify_output_needs_its_own_keys (self self' : AxiomHiveHybridModel.t)
    (fused : pydict) (out : HybridOutput.t) :
  lookup_key "confidence_score" fused = None ->
  verify_output self out (_generate_attestation self' fused) = false
  \/ sha256_collision (encode (dumps (PDict (verified_items out))))
                      (encode (dumps (PDict fused))).
Proof.
  intros Hnone. unfold verify_output, _generate_attestation.
  change [ ("output", HybridOutput.output out);
           ("reasoning_path", HybridOutput.reasoning_path out);
           ("confidence_score", HybridOutput.confidence_score out) ]
    with (verified_items out).
  destruct (String.eqb_spec (sha256_hex (dumps (PDict (verified_items out))))
                            (sha256_hex (dumps (PDict fused)))) as [E | N].
  - right. split; [| exact E].
    intros Eb. apply encode_inj in Eb.
    now apply (dumps_without_confidence_score fused out Hnone).
  - now left.
Qed.

Lemma verify_output_needs_its_own_keys_witness :
  lookup_key "confidence_score" deterministic_R3 = None
  /\ (verify_output (model (Member SYMBOLIC) true) approved_output
        (_generate_attestation (model (Member SYMBOLIC) true) deterministic_R3) = false
      \/ sha256_collision (encode (dumps (PDict (verified_items approved_output))))
                          (encode (dumps (PDict deterministic_R3)))).
Proof.
  split; [reflexivity |].
  apply (verify_output_needs_its_own_keys (model (Member SYMBOLIC) true)
           (model (Member SYMBOLIC) true) deterministic_R3 approved_output eq_refl).
Defined.

Lemma fused_has_no_confidence_score (self : AxiomHiveHybridModel.t) (d p fused : pydict) :
  reasoning_mode self = Member HYBRID \/ reasoning_mode self = Member VOTING ->
  _orchestrate self d p = Ok fused ->
  lookup_key "confidence_score" fused = None.
Proof.
  intros Hm. unfold _orchestrate.
  assert (mode_value (reasoning_mode self) = Ok (PStr "hybrid")
          \/ mode_value (reasoning_mode self) = Ok (PStr "voting")) as [-> | ->]
    by (destruct Hm as [-> | ->]; [left | right]; reflexivity);
    (assert (mode_is (reasoning_mode self) SYMBOLIC = false) as ->
       by (destruct Hm as [-> | ->]; reflexivity));
    (assert (mode_is (reasoning_mode self) PROBABILISTIC = false) as ->
       by (destruct Hm as [-> | ->]; reflexivity));
    cbn [bind];
    destruct (getitem d "decision"); cbn [bind]; try discriminate;
    destruct (getitem d "reasoning"); cbn [bind]; try discriminate;
    destruct (getitem p "reasoning"); cbn [bind]; try discriminate;
    intros E; injection E as <-; reflexivity.
Qed.

(** X19. Whatever records the two pathways deliver, the record HYBRID or
    VOTING fuses from them gets a hash that [verify_output] rejects, for
    every output it is asked about: the failure of verification is not a
    matter of the fixed records [process] works with. Only a SHA-256
    collision between the two canonical texts could make it accept. *)
Theorem verify_output_rejects_every_fused_record (self : AxiomHiveHybridModel.t)
    (d p fused : pydict) (out : HybridOutput.t) :
  reasoning_mode self = Member HYBRID \/ reasoning_mode self = Member VOTING ->
  _orchestrate self d p = Ok fused ->
  verify_output self out (_generate_attestation self fused) = false
  \/ sha256_collision (encode (dumps (PDict (verified_items out))))
                      (encode (dumps (PDict fused))).
Proof.
  intros Hm Ho. pose proof (fused_has_no_confidence_score self d p fused Hm Ho) as Hnone.
  unfold verify_output, _generate_attestation.
  change [ ("output", HybridOutput.output out);
           ("reasoning_path", HybridOutput.reasoning_path out);
           ("confidence_score", HybridOutput.confidence_score out) ]
    with (verified_items out).
  destruct (String.eqb_spec (sha256_hex (dumps (PDict (verified_items out))))
                            (sha256_hex (dumps (PDict fused)))) as [E | N].
  - right. split; [| exact E].
    intros Eb. apply encode_inj in Eb.
    now apply (dumps_without_confidence_score fused out Hnone).
  - now left.
Qed.

Lemma verify_output_rejects_every_fused_record_witness :
  reasoning_mode (model (Member HYBRID) true) = Member HYBRID
  /\ exists fused : pydict,
       _orchestrate (model (Member HYBRID) true) deterministic_R3 probabilistic_anomaly
       = Ok fused
       /\ (verify_output (model (Member HYBRID) true) approved_output
             (_generate_attestation (model (Member HYBRID) true) fused) = false
           \/ sha256_collision (encode (dumps (PDict (verified_items approved_output))))
                               (encode (dumps (PDict fused)))).
Proof.
  split; [reflexivity |]. eexists. split; [reflexivity |].
  apply (verify_output_rejects_every_fused_record (model (Member HYBRID) true)
           deterministic_R3 probabilistic_anomaly _ approved_output (or_introl eq_refl) eq_refl).
Defined.
